(** * HW4 notebook: the CSV folder loader, the unit normaliser and the
      appliance-share aggregation of [HW4/hw4.ipynb].

    The notebook is a straight pipeline of pandas calls.  The embedding keeps
    its shape: a data frame is its column labels and the list of its rows in
    index order, a Python exception is the [Raise] branch of an error monad,
    the module-wide [time_point] is passed explicitly, and the file system
    that [os.listdir] and [pd.read_csv] look at is a record of two
    functions.

    Numbers.  The cells of the CSV files are finite numbers; they are modelled
    as exact rationals ([Qc]): the rounding, the overflow, the underflow and
    the signed zeros of binary64 arithmetic are not represented, and what is
    proved of sums, quotients and their order is proved over exact
    arithmetic.  The cells that the notebook itself can make missing or
    infinite are kept: the cells with which [pd.concat] fills the columns a
    file does not have (type [value]), and the IEEE special values of the
    division of the percentage column (type [ieee]). *)

From Stdlib Require Import QArith Qcanon Floats.
From stdpp Require Import base numbers strings sorting list.

Local Open Scope Z_scope.

(** ** Exceptions and the error monad *)

(** The exceptions the modelled calls can raise. *)
Inductive exn : Type :=
  | OSError (path : string)            (* os.listdir: missing directory, ... *)
  | ReadError (path : string)          (* pd.read_csv: EmptyDataError, ParserError *)
  | DateParseError (text : string)     (* pd.to_datetime, pd.Timestamp: ValueError *)
  | NoObjectsToConcatenate             (* pd.concat([]): ValueError *)
  | InvalidComparison (text : string)  (* datetime column < unparsable str: TypeError *)
  | LengthMismatch (expected got : nat). (* df.columns = names: ValueError *)

Inductive result (A : Type) : Type :=
  | Ok (a : A)
  | Raise (e : exn).
Arguments Ok {A} a.
Arguments Raise {A} e.

#[global] Instance result_ret : MRet result := fun A a => Ok a.
#[global] Instance result_bind : MBind result := fun A B f m =>
  match m with
  | Ok a => f a
  | Raise e => Raise e
  end.

Definition is_Ok {A} (r : result A) : bool :=
  match r with Ok _ => true | Raise _ => false end.

(** ** Strings: the three string operations of [load_data] *)

(** [s.endswith(suffix)]. *)
Definition endswith (s suffix : string) : bool :=
  String.eqb
    (String.substring (String.length s - String.length suffix)
                      (String.length suffix) s)
    suffix.

(** [s[:-4]]: everything but the last four characters (the empty string when
    [s] has fewer than four). *)
Definition drop_last4 (s : string) : string :=
  String.substring 0 (String.length s - 4) s.

(** [os.path.join(a, b)] of [posixpath]. *)
Definition path_join (a b : string) : string :=
  if String.prefix "/" b then b
  else if String.eqb a "" then b
  else if endswith a "/" then (a +:+ b)%string
  else (a +:+ "/" +:+ b)%string.

(** [sorted(names)] on a list of [str]: increasing in the lexicographic order
    of the characters. *)
Definition sorted (names : list string) : list string :=
  merge_sort String.le names.

(** ** Data frames of the loader *)

(** What [pd.to_datetime] and [pd.Timestamp] make of a string they accept: a
    timestamp, as its value (nanoseconds since the epoch), or the missing
    timestamp [pd.NaT], which is what they return for the empty string and
    for ["NaT"]. *)
Inductive Timestamp : Type :=
  | Stamp (ns : Z)
  | NaT.

#[global] Instance Timestamp_eq_dec : EqDecision Timestamp.
Proof. solve_decision. Defined.

(** [d < c] on two timestamps: a comparison with [NaT] is false. *)
Definition earlier (d c : Timestamp) : Prop :=
  match d, c with
  | Stamp a, Stamp b => a < b
  | _, _ => False
  end.

#[global] Instance earlier_dec : RelDecision earlier.
Proof. intros [a|] [b|]; simpl; apply _. Defined.

(** The labels of the columns of a frame of the loader: the integers that
    [pd.read_csv(header=None)] gives to the columns of a file, and
    ['date']. *)
Inductive label : Type :=
  | Col (i : nat)
  | DateCol.

#[global] Instance label_eq_dec : EqDecision label.
Proof. solve_decision. Defined.

(** A cell as a frame shows it: a number, the missing number with which
    [pd.concat] fills a column that the file of the row does not have, or a
    timestamp. *)
Inductive value : Type :=
  | Num (x : Qc)
  | Missing
  | At (t : Timestamp).

(** A line of a file as [pd.read_csv(path, header=None)] returns it: the
    cell of column 0, which every line has (a file without a field makes
    [pd.read_csv] raise), and the cells of the columns 1, 2, ... that the
    line has. *)
Record Line : Type := mkLine {
  cell0 : Qc;
  others : list Qc
}.

(** Frames as [load_data] builds them. *)
Module Raw.

(** A row: its cells in the columns with integer labels, and its cell in the
    column ['date']. *)
Record Row : Type := mkRow {
  cells : Line;
  date : Timestamp
}.

(** A frame: the labels of its columns after column 0, in the order of the
    columns, and its rows.  Column 0 is the first column of every file, and
    so of every frame built from files.  The labels stay when no row is
    left. *)
Record Frame : Type := mkFrame {
  labels : list label;
  rows : list Row
}.

(** [df.columns]. *)
Definition columns (df : Frame) : list label := Col 0 :: labels df.

(** The cell of a row in the column with a given label. *)
Definition at_label (r : Row) (l : label) : value :=
  match l with
  | Col 0 => Num (cell0 (cells r))
  | Col (S j) =>
      match others (cells r) !! j with
      | Some x => Num x
      | None => Missing
      end
  | DateCol => At (date r)
  end.

(** A row of a frame by position: its cells in the order of the columns. *)
Definition values (df : Frame) (r : Row) : list value :=
  at_label r <$> columns df.

(** The column at position 0. *)
Definition column0 (df : Frame) : list Qc :=
  map (fun r => cell0 (cells r)) (rows df).

(** The number of columns that [pd.read_csv] finds after column 0: the
    number of such cells of the longest line (of the frame it returns no
    line is longer than the first, and a shorter line is missing its last
    cells). *)
Definition extra_width (lines : list Line) : nat :=
  max_list (map (fun l => length (others l)) lines).

(** The frame just read, after [df['date'] = d]: the columns
    [0 .. n-1] of the file, then ['date'], the same date in every row. *)
Definition set_date (lines : list Line) (d : Timestamp) : Frame :=
  mkFrame (map (fun j => Col (S j)) (seq 0 (extra_width lines)) ++ [DateCol])
          (map (fun l => mkRow l d) lines).

(** The columns of [pd.concat(frames)]: the union of the labels of the
    frames, each label at its first appearance. *)
Definition union_labels (indexes : list (list label)) : list label :=
  fold_left (fun acc index => acc ++ list_difference index acc) indexes [].

(** [pd.concat(frames, ignore_index=True)] on frames of the loader: the
    union of the columns, and the rows of the frames, one frame after the
    other; a row has no cell in the columns that its own frame does not
    have.  An empty list of frames is an error. *)
Definition pd_concat (frames : list Frame) : result Frame :=
  match frames with
  | [] => Raise NoObjectsToConcatenate
  | _ => Ok (mkFrame (union_labels (map labels frames))
                     (concat (map rows frames)))
  end.

End Raw.

Abbreviation DataFrame := Raw.Frame.

(** [pd.concat(frames)] on frames that have the same columns by
    construction (the named frames below): the rows of the frames, one frame
    after the other; an empty list of frames is an error. *)
Definition pd_concat {A} (frames : list (list A)) : result (list A) :=
  match frames with
  | [] => Raise NoObjectsToConcatenate
  | _ => Ok (concat frames)
  end.

(** What [os.listdir] and [pd.read_csv(path, header=None)] see. *)
Record FileSystem : Type := mkFS {
  listdir : string -> result (list string);
  read_csv : string -> result (list Line)
}.

(** The module-wide cutoff as the notebook sets it; [load_data] reads the
    global, here its parameter [time_point]. *)
Definition time_point : string := "2012-07-01".

Section Loader.

(** [pd.to_datetime] on the stem of a file name; [pd.Timestamp] on the
    string that the date column is compared with (the comparison builds the
    timestamp of its string operand); and the file system. *)
Variable to_datetime : string -> result Timestamp.
Variable to_timestamp : string -> result Timestamp.
Variable fs : FileSystem.

(** The body of the [for] loop for one file that passed the [if]. *)
Definition load_file (folder_path file : string) : result DataFrame :=
  let file_path := path_join folder_path file in
  df ← read_csv fs file_path;
  d ← to_datetime (drop_last4 file);
  mret (Raw.set_date df d).

(** The [for] loop, with the list [data] it appends to. *)
Fixpoint load_loop (folder_path : string) (files : list string)
    (data : list DataFrame) : result (list DataFrame) :=
  match files with
  | [] => Ok data
  | file :: files' =>
      if endswith file ".csv" then
        df ← load_file folder_path file;
        load_loop folder_path files' (data ++ [df])
      else load_loop folder_path files' data
  end.

(** [combined_data[combined_data['date'] < time_point]]: the timestamp of
    the string is built, which an unparsable string makes a type error of
    the comparison; then the mask keeps the rows in order, and the
    columns. *)
Definition before (time_point : string) (df : DataFrame) : result DataFrame :=
  match to_timestamp time_point with
  | Ok c =>
      Ok (Raw.mkFrame (Raw.labels df)
                      (filter (fun r => earlier (Raw.date r) c) (Raw.rows df)))
  | Raise _ => Raise (InvalidComparison time_point)
  end.

Definition load_data (time_point : string) (folder_path : string)
    : result DataFrame :=
  names ← listdir fs folder_path;
  data ← load_loop folder_path (sorted names) [];
  combined_data ← Raw.pd_concat data;
  before time_point combined_data.

End Loader.

(** ** An instance: ISO calendar dates and a three-day folder

    The theorems below hold for every [to_datetime] and [to_timestamp].  The
    data set names its files [YYYY-MM-DD.csv]; [Iso.to_datetime] is
    [pd.to_datetime] on strings of that form and on the strings that pandas
    reads as a missing timestamp (it fails elsewhere, where pandas tries
    further formats).  It is used to run the loader on concrete folders. *)
Module Iso.

Fixpoint digits_go (acc : Z) (s : string) : option Z :=
  match s with
  | EmptyString => Some acc
  | String a s' =>
      match Ascii.is_nat a with
      | Some n => digits_go (10 * acc + Z.of_nat n) s'
      | None => None
      end
  end.

(** A non-empty string of decimal digits, as a number. *)
Definition digits (s : string) : option Z :=
  match s with
  | EmptyString => None
  | _ => digits_go 0 s
  end.

Definition is_leap (y : Z) : bool :=
  (y mod 4 =? 0) && (negb (y mod 100 =? 0) || (y mod 400 =? 0)).

Definition days_in_month (y m : Z) : Z :=
  if m =? 2 then (if is_leap y then 29 else 28)
  else if (m =? 4) || (m =? 6) || (m =? 9) || (m =? 11) then 30
  else 31.

(** Days from 1970-01-01 to the given day of the proleptic Gregorian
    calendar. *)
Definition days_from_civil (y m d : Z) : Z :=
  let y' := if m <=? 2 then y - 1 else y in
  let era := y' / 400 in
  let yoe := y' - era * 400 in
  let doy := (153 * (if 2 <? m then m - 3 else m + 9) + 2) / 5 + d - 1 in
  let doe := yoe * 365 + yoe / 4 - yoe / 100 + doy in
  era * 146097 + doe - 719468.

Definition ns_per_day : Z := 86400 * 1000000000.

(** The strings that pandas reads as [NaT], with the empty string. *)
Definition nat_strings : list string :=
  ["NaT"; "nat"; "NAT"; "nan"; "NaN"; "NAN"].

Definition to_datetime (s : string) : result Timestamp :=
  if bool_decide (s = "" ∨ s ∈ nat_strings) then Ok NaT
  else
    match digits (String.substring 0 4 s), digits (String.substring 5 2 s),
          digits (String.substring 8 2 s) with
    | Some y, Some m, Some d =>
        if (String.length s =? 10)%nat
           && String.eqb (String.substring 4 1 s) "-"
           && String.eqb (String.substring 7 1 s) "-"
           && (1 <=? m) && (m <=? 12)
           && (1 <=? d) && (d <=? days_in_month y m)
        then Ok (Stamp (days_from_civil y m d * ns_per_day))
        else Raise (DateParseError s)
    | _, _, _ => Raise (DateParseError s)
    end.

(** [pd.Timestamp] reads these strings as [pd.to_datetime] does. *)
Definition to_timestamp (s : string) : result Timestamp := to_datetime s.

End Iso.

(** The folder of the loader's example: three daily files and a note. *)
Module Sample.

Definition folder : string := "eco/04_sm_csv".

Definition q (n : Z) : Qc := Q2Qc (inject_Z n).

(** A line of one cell. *)
Definition line (n : Z) : Line := mkLine (q n) [].

Definition names : list string :=
  ["2012-06-29.csv"; "README.txt"; "2012-06-27.csv"; "2012-06-28.csv"].

Definition fs : FileSystem := {|
  listdir path :=
    if String.eqb path folder then Ok names
    else if String.eqb path "eco/empty" then Ok []
    else if String.eqb path "eco/notes" then Ok ["README.txt"]
    else if String.eqb path "eco/bad"
    then Ok ["2012-06-27.csv"; "backup.csv"; ".csv"; "2012-06-28.csv"]
    else if String.eqb path "eco/nat" then Ok ["2012-06-27.csv"; ".csv"]
    else if String.eqb path "eco/wide"
    then Ok ["2012-06-27.csv"; "2012-06-28.csv"]
    else if String.eqb path "eco/ragged"
    then Ok ["2012-06-27.csv"; "2012-06-28.csv"]
    else Raise (OSError path);
  read_csv path :=
    if String.eqb path "eco/04_sm_csv/2012-06-27.csv"
    then Ok [line 10; line 11]
    else if String.eqb path "eco/04_sm_csv/2012-06-28.csv" then Ok [line 20]
    else if String.eqb path "eco/04_sm_csv/2012-06-29.csv"
    then Ok [line 30; line 31]
    else if String.eqb path "eco/bad/2012-06-27.csv" then Ok [line 10]
    else if String.eqb path "eco/bad/2012-06-28.csv" then Ok [line 20]
    else if String.eqb path "eco/bad/backup.csv" then Ok [line 99]
    else if String.eqb path "eco/bad/.csv" then Ok [line 98]
    else if String.eqb path "eco/nat/2012-06-27.csv" then Ok [line 10]
    else if String.eqb path "eco/nat/.csv" then Ok [line 98]
    else if String.eqb path "eco/wide/2012-06-27.csv" then Ok [line 10]
    else if String.eqb path "eco/wide/2012-06-28.csv"
    then Ok [mkLine (q 20) [q 21; q 22]]
    else if String.eqb path "eco/ragged/2012-06-27.csv" then Ok [line 10]
    else if String.eqb path "eco/ragged/2012-06-28.csv"
    then Ok [mkLine (q 20) [q 1; q 2; q 3; q 4; q 5; q 6; q 7; q 8; q 9;
                             q 10; q 11; q 12; q 13; q 14; q 15]]
    else Raise (ReadError path)
|}.

Definition ns27 : Z := 1340755200000000000.
Definition ns28 : Z := 1340841600000000000.
Definition ns29 : Z := 1340928000000000000.

Definition d27 : Timestamp := Stamp ns27.
Definition d28 : Timestamp := Stamp ns28.
Definition d29 : Timestamp := Stamp ns29.

(** The rows of a file of one column, and the columns of a frame of such
    files. *)
Definition row (n : Z) (d : Timestamp) : Raw.Row := Raw.mkRow (line n) d.

Definition frame (rows : list Raw.Row) : DataFrame :=
  Raw.mkFrame [DateCol] rows.

End Sample.

(** ** The unit and schema normaliser *)

(** [3600 * 1000]: the raw unit per kilowatt-hour. *)
Definition raw_per_kwh : Qc := Qc_of_Z 3600 * Qc_of_Z 1000.

(** [x / (3600 * 1000)] on one cell. *)
Definition kwh (x : Qc) : Qc := x / raw_per_kwh.

(** The same expression on a binary64 cell, with its rounding; used on
    concrete readings. *)
Definition kwh64 (x : PrimFloat.float) : PrimFloat.float :=
  (x / (3600 * 1000))%float.

(** Smart-meter frames: the seventeen names that the notebook gives to the
    columns of a frame of the loader, by position. *)
Module Sm.

(** A row under the names.  The first column is column 0 of the files, a
    number in every row.  Each of the other sixteen holds what the column at
    its position held: in a frame built from files of sixteen columns, the
    cells of columns 1 to 15 and the date; in a frame built from files of
    different widths, a cell can be missing and the date can sit under
    another name. *)
Record Row : Type := mkRow {
  powerallphases : Qc;
  powerphase1 : value;
  powerphase2 : value;
  powerphase3 : value;
  voltagephase1 : value;
  voltagephase2 : value;
  voltagephase3 : value;
  currentphase1 : value;
  currentphase2 : value;
  currentphase3 : value;
  pfphase1 : value;
  pfphase2 : value;
  pfphase3 : value;
  freq : value;
  extra_col1 : value;
  extra_col2 : value;
  date : value
}.

Abbreviation Frame := (list Row).

(** [sm_data.columns = [...]] with the seventeen names of the notebook: the
    number of names is checked against the number of columns of the frame,
    once, whatever the rows; then each column goes under the name at its
    position. *)
Definition set_columns (df : DataFrame) : result Frame :=
  match Raw.labels df with
  | [l1; l2; l3; l4; l5; l6; l7; l8; l9; l10; l11; l12; l13; l14; l15; l16] =>
      Ok (map (fun r =>
                 mkRow (cell0 (Raw.cells r))
                       (Raw.at_label r l1) (Raw.at_label r l2)
                       (Raw.at_label r l3) (Raw.at_label r l4)
                       (Raw.at_label r l5) (Raw.at_label r l6)
                       (Raw.at_label r l7) (Raw.at_label r l8)
                       (Raw.at_label r l9) (Raw.at_label r l10)
                       (Raw.at_label r l11) (Raw.at_label r l12)
                       (Raw.at_label r l13) (Raw.at_label r l14)
                       (Raw.at_label r l15) (Raw.at_label r l16))
              (Raw.rows df))
  | _ => Raise (LengthMismatch (length (Raw.columns df)) 17)
  end.

(** [sm_data['powerallphases'] = sm_data['powerallphases'] / (3600 * 1000)]:
    the column is replaced, the others are kept. *)
Definition to_kwh_row (r : Row) : Row :=
  mkRow (kwh (powerallphases r))
        (powerphase1 r) (powerphase2 r) (powerphase3 r)
        (voltagephase1 r) (voltagephase2 r) (voltagephase3 r)
        (currentphase1 r) (currentphase2 r) (currentphase3 r)
        (pfphase1 r) (pfphase2 r) (pfphase3 r)
        (freq r) (extra_col1 r) (extra_col2 r) (date r).

Definition to_kwh (df : Frame) : Frame := map to_kwh_row df.

(** The body of the loop over the three meter frames. *)
Definition normalize (df : DataFrame) : result Frame :=
  named ← set_columns df;
  mret (to_kwh named).

(** A named row by position: its cells in the order of the names. *)
Definition values (r : Row) : list value :=
  [Num (powerallphases r); powerphase1 r; powerphase2 r; powerphase3 r;
   voltagephase1 r; voltagephase2 r; voltagephase3 r;
   currentphase1 r; currentphase2 r; currentphase3 r;
   pfphase1 r; pfphase2 r; pfphase3 r;
   freq r; extra_col1 r; extra_col2 r; date r].

End Sm.

(** Plug frames: ['power'] and ['date']. *)
Module Plug.

Record Row : Type := mkRow {
  power : Qc;
  date : value
}.

Abbreviation Frame := (list Row).

(** [df.columns = ['power', 'date']]: the same check, against two names. *)
Definition set_columns (df : DataFrame) : result Frame :=
  match Raw.labels df with
  | [l1] =>
      Ok (map (fun r => mkRow (cell0 (Raw.cells r)) (Raw.at_label r l1))
              (Raw.rows df))
  | _ => Raise (LengthMismatch (length (Raw.columns df)) 2)
  end.

(** [df['power'] = df['power'] / (3600 * 1000)]. *)
Definition to_kwh_row (r : Row) : Row := mkRow (kwh (power r)) (date r).

Definition to_kwh (df : Frame) : Frame := map to_kwh_row df.

Definition normalize (df : DataFrame) : result Frame :=
  named ← set_columns df;
  mret (to_kwh named).

(** A named row by position. *)
Definition values (r : Row) : list value := [Num (power r); date r].

End Plug.

(** ** The household and appliance labels *)

(** A row with the column ['household'] added. *)
Record Housed (A : Type) : Type := mkHoused {
  data : A;
  household : string
}.
Arguments mkHoused {A} data household.
Arguments data {A} h.
Arguments household {A} h.

(** A plug row with the column ['appliance'] added. *)
Record Appliance : Type := mkAppliance {
  plug : Plug.Row;
  appliance : string
}.

(** [df['household'] = label] and [df.assign(household=label)]. *)
Definition assign_household {A} (label : string) (df : list A)
    : list (Housed A) :=
  map (fun r => mkHoused r label) df.

(** [df.assign(appliance=code)]. *)
Definition assign_appliance (code : string) (df : Plug.Frame)
    : list Appliance :=
  map (fun r => mkAppliance r code) df.

Definition combined_sm_data (sm_data_04 sm_data_05 sm_data_06 : Sm.Frame)
    : result (list (Housed Sm.Row)) :=
  pd_concat [assign_household "Household 4" sm_data_04;
             assign_household "Household 5" sm_data_05;
             assign_household "Household 6" sm_data_06].

(** One household of the plug data: [plugs_data] is the dict of its frames
    in insertion order. *)
Definition household_plugs (label : string)
    (plugs_data : list (string * Plug.Frame)) : result (list (Housed Appliance)) :=
  df ← pd_concat (map (fun item => assign_appliance item.1 item.2) plugs_data);
  mret (assign_household label df).

Definition combined_plugs_data
    (plugs_data_04 plugs_data_05 plugs_data_06 : list (string * Plug.Frame))
    : result (list (Housed Appliance)) :=
  h4 ← household_plugs "Household 4" plugs_data_04;
  h5 ← household_plugs "Household 5" plugs_data_05;
  h6 ← household_plugs "Household 6" plugs_data_06;
  pd_concat [h4; h5; h6].

(** ** Sums and [groupby(...).agg('sum')] *)

(** The sum of a column of finite numbers. *)
Definition total (values : list Qc) : Qc := foldr Qcplus 0%Qc values.
Arguments total : simpl never.

Section GroupBy.

Context {K : Type} `{EqDecision K}.
Context (le : relation K) `{forall x y, Decision (le x y)}.

(** One step of the group-sum pass: the cell is added to the accumulator
    of its group; a group seen for the first time gets an accumulator
    that starts at zero. *)
Fixpoint add_to (k : K) (v : Qc) (acc : list (K * Qc)) : list (K * Qc) :=
  match acc with
  | [] => [(k, (0 + v)%Qc)]
  | (k', s) :: acc' =>
      if decide (k = k') then (k', (s + v)%Qc) :: acc'
      else (k', s) :: add_to k v acc'
  end.

(** The pass over the rows, groups in order of first appearance. *)
Definition group_sums {A} (key : A -> K) (val : A -> Qc) (rows : list A)
    : list (K * Qc) :=
  fold_left (fun acc r => add_to (key r) (val r) acc) rows [].

(** [rows.groupby(key).agg({val: 'sum'}).reset_index()]: one row per group,
    sorted by the key. *)
Definition groupby_sum {A} (key : A -> K) (val : A -> Qc) (rows : list A)
    : list (K * Qc) :=
  merge_sort (fun x y => le x.1 y.1) (group_sums key val rows).

End GroupBy.

(** The order of the two-column key [['household', 'appliance']]. *)
Definition pair_le (x y : string * string) : Prop :=
  x.1 ≠ y.1 ∧ String.le x.1 y.1 ∨ x.1 = y.1 ∧ String.le x.2 y.2.

#[global] Instance pair_le_dec : RelDecision pair_le.
Proof. intros x y. unfold pair_le. apply _. Defined.

(** ** Division with the IEEE special values *)

(** A binary64 value with the rounding abstracted: a finite number, an
    infinity or not-a-number.  The finite numbers are exact: a quotient
    neither overflows to an infinity nor underflows to zero, and there is
    one zero, which stands for [+0.0] (a negative zero, which would turn the
    sign of an infinite quotient, is not represented). *)
Inductive ieee : Type :=
  | Fin (q : Qc)
  | PInf
  | NInf
  | NaN.

Definition is_finite (x : ieee) : bool :=
  match x with Fin _ => true | _ => false end.

Definition fneg (x : ieee) : ieee :=
  match x with
  | Fin q => Fin (- q)%Qc
  | PInf => NInf
  | NInf => PInf
  | NaN => NaN
  end.

(** The infinity with the sign of [q], for [q] not zero. *)
Definition inf_of_sign (q : Qc) : ieee :=
  if decide (0 < q)%Qc then PInf else NInf.

Definition fadd (x y : ieee) : ieee :=
  match x, y with
  | NaN, _ | _, NaN => NaN
  | Fin a, Fin b => Fin (a + b)%Qc
  | PInf, NInf | NInf, PInf => NaN
  | PInf, _ | _, PInf => PInf
  | NInf, _ | _, NInf => NInf
  end.

Definition fmul (x y : ieee) : ieee :=
  match x, y with
  | NaN, _ | _, NaN => NaN
  | Fin a, Fin b => Fin (a * b)%Qc
  | Fin a, PInf | PInf, Fin a =>
      if decide (a = 0%Qc) then NaN else inf_of_sign a
  | Fin a, NInf | NInf, Fin a =>
      if decide (a = 0%Qc) then NaN else fneg (inf_of_sign a)
  | PInf, PInf | NInf, NInf => PInf
  | PInf, NInf | NInf, PInf => NInf
  end.

Definition fdiv (x y : ieee) : ieee :=
  match x, y with
  | NaN, _ | _, NaN => NaN
  | Fin a, Fin b =>
      if decide (b = 0%Qc)
      then (if decide (a = 0%Qc) then NaN else inf_of_sign a)
      else Fin (a / b)%Qc
  | Fin _, (PInf | NInf) => Fin 0%Qc
  | PInf, Fin b => if decide (b < 0)%Qc then NInf else PInf
  | NInf, Fin b => if decide (b < 0)%Qc then PInf else NInf
  | (PInf | NInf), (PInf | NInf) => NaN
  end.

Definition fsum (values : list ieee) : ieee := foldr fadd (Fin 0%Qc) values.

(** ** The aggregation cell *)

Module Total.

(** A row of [total_power]: the appliance total joined with the meter
    total of its household. *)
Record Row : Type := mkRow {
  household : string;
  appliance : string;
  power : Qc;
  powerallphases : Qc
}.

End Total.

Definition plug_key (r : Housed Appliance) : string * string :=
  (household r, appliance (data r)).

Definition plug_power (r : Housed Appliance) : Qc := Plug.power (plug (data r)).

Definition sm_power (r : Housed Sm.Row) : Qc := Sm.powerallphases (data r).

(** [combined_plugs_data.groupby(['household', 'appliance'])
      .agg({'power': 'sum'}).reset_index()]. *)
Definition total_appliance_power (combined_plugs : list (Housed Appliance))
    : list (string * string * Qc) :=
  groupby_sum pair_le plug_key plug_power combined_plugs.

(** [combined_sm_data.groupby(['household'])
      .agg({'powerallphases': 'sum'}).reset_index()]. *)
Definition total_household_power (combined_sm : list (Housed Sm.Row))
    : list (string * Qc) :=
  groupby_sum String.le household sm_power combined_sm.

(** [left.merge(right, on='household')]: the inner join, in the order of the
    left rows. *)
Definition merge_on_household (left : list (string * string * Qc))
    (right : list (string * Qc)) : list Total.Row :=
  l ← left;
  r ← filter (fun r => r.1 = l.1.1) right;
  [Total.mkRow l.1.1 l.1.2 l.2 r.2].

Definition total_power (combined_plugs : list (Housed Appliance))
    (combined_sm : list (Housed Sm.Row)) : list Total.Row :=
  merge_on_household (total_appliance_power combined_plugs)
                     (total_household_power combined_sm).

(** [total_power['power'] / total_power['powerallphases'] * 100] on one row. *)
Definition percentage (r : Total.Row) : ieee :=
  fmul (fdiv (Fin (Total.power r)) (Fin (Total.powerallphases r)))
       (Fin (Qc_of_Z 100)).

(** The column [total_power['percentage']]. *)
Definition percentages (tp : list Total.Row) : list ieee := map percentage tp.

(** A small aggregation input: two households, one of which has a meter
    total of zero. *)
Module SampleTotals.

Definition q := Sample.q.

Definition plug_row (h a : string) (p : Z) : Housed Appliance :=
  mkHoused (mkAppliance (Plug.mkRow (q p) (At Sample.d27)) a) h.

Definition sm_row (h : string) (p : Z) : Housed Sm.Row :=
  mkHoused (Sm.mkRow (q p) (Num (q 1)) (Num (q 2)) (Num (q 3)) (Num (q 4))
                     (Num (q 5)) (Num (q 6)) (Num (q 7)) (Num (q 8))
                     (Num (q 9)) (Num (q 10)) (Num (q 11)) (Num (q 12))
                     (Num (q 13)) (Num (q 14)) (Num (q 15))
                     (At Sample.d27)) h.

Definition plugs : list (Housed Appliance) :=
  [plug_row "Household 5" "02" 1; plug_row "Household 4" "05" 3;
   plug_row "Household 4" "01" 1; plug_row "Household 4" "05" 2;
   plug_row "Household 5" "01" 0].

Definition meters : list (Housed Sm.Row) :=
  [sm_row "Household 4" 6; sm_row "Household 5" 0; sm_row "Household 4" 14].

End SampleTotals.

(** ** The cells that load and prepare the frames *)

Section Notebook.

Variable to_datetime : string -> result Timestamp.
Variable to_timestamp : string -> result Timestamp.
Variable fs : FileSystem.
Variable time_point : string.

(** The cell of the meter data: the three folders are loaded, then each
    frame is given its names and converted. *)
Definition load_sm_data : result (Sm.Frame * Sm.Frame * Sm.Frame) :=
  sm_data_04 ← load_data to_datetime to_timestamp fs time_point
                 "eco/04_sm_csv";
  sm_data_05 ← load_data to_datetime to_timestamp fs time_point
                 "eco/05_sm_csv";
  sm_data_06 ← load_data to_datetime to_timestamp fs time_point
                 "eco/06_sm_csv";
  sm_data_04 ← Sm.normalize sm_data_04;
  sm_data_05 ← Sm.normalize sm_data_05;
  sm_data_06 ← Sm.normalize sm_data_06;
  mret (sm_data_04, sm_data_05, sm_data_06).

(** [{appliance: load_data(f"{folder}{appliance}") for appliance in codes}]:
    the dict as its items in insertion order (the codes of the notebook are
    distinct). *)
Definition load_plugs (folder : string) (codes : list string)
    : result (list (string * DataFrame)) :=
  mapM (fun appliance =>
          df ← load_data to_datetime to_timestamp fs time_point
                 (folder +:+ appliance);
          mret (appliance, df))
       codes.

(** The inner loop of the plug cell: every frame of one household is given
    its names and converted. *)
Definition normalize_plugs (household_plugs_data : list (string * DataFrame))
    : result (list (string * Plug.Frame)) :=
  mapM (fun item => df ← Plug.normalize item.2; mret (item.1, df))
       household_plugs_data.

(** The cell of the plug data: eight appliances for households 4 and 5,
    seven for household 6. *)
Definition load_plugs_data
    : result (list (string * Plug.Frame) * list (string * Plug.Frame)
              * list (string * Plug.Frame)) :=
  plugs_data_04 ← load_plugs "eco/04_plugs_csv/"
                    ["01"; "02"; "03"; "04"; "05"; "06"; "07"; "08"];
  plugs_data_05 ← load_plugs "eco/05_plugs_csv/"
                    ["01"; "02"; "03"; "04"; "05"; "06"; "07"; "08"];
  plugs_data_06 ← load_plugs "eco/06_plugs_csv/"
                    ["01"; "02"; "03"; "04"; "05"; "06"; "07"];
  plugs_data_04 ← normalize_plugs plugs_data_04;
  plugs_data_05 ← normalize_plugs plugs_data_05;
  plugs_data_06 ← normalize_plugs plugs_data_06;
  mret (plugs_data_04, plugs_data_05, plugs_data_06).

(** The cells in the order of the notebook, up to the frame [total_power]
    that the bar chart shows. *)
Definition notebook : result (list Total.Row) :=
  sm ← load_sm_data;
  plugs ← load_plugs_data;
  combined_sm ← combined_sm_data sm.1.1 sm.1.2 sm.2;
  combined_plugs ← combined_plugs_data plugs.1.1 plugs.1.2 plugs.2;
  mret (total_power combined_plugs combined_sm).

End Notebook.

(** A file system on which every folder of the notebook holds one daily
    file: sixteen columns in the meter folders, one in the plug folders. *)
Module SampleNotebook.

Definition q := Sample.q.

Definition is_meter_path (path : string) : bool :=
  match String.index 0 "_sm_csv" path with Some _ => true | None => false end.

Definition fs : FileSystem := {|
  listdir path := Ok ["2012-06-27.csv"];
  read_csv path :=
    if is_meter_path path
    then Ok [mkLine (q 7200000)
                    [q 1; q 2; q 3; q 4; q 5; q 6; q 7; q 8; q 9; q 10;
                     q 11; q 12; q 13; q 14; q 15]]
    else Ok [mkLine (q 1800000) []; mkLine (q 1800000) []]
|}.

Definition rows : list Total.Row :=
  Eval vm_compute in
    match notebook Iso.to_datetime Iso.to_timestamp fs time_point with
    | Ok rows => rows
    | Raise _ => []
    end.

End SampleNotebook.

(** ** Vocabulary of the statements *)

(** A combined frame as it would be without the unit conversion, and with
    it: the conversion applied under the labels. *)
Definition converted_sm (combined_sm : list (Housed Sm.Row))
    : list (Housed Sm.Row) :=
  map (fun r => mkHoused (Sm.to_kwh_row (data r)) (household r)) combined_sm.

Definition converted_plugs (combined_plugs : list (Housed Appliance))
    : list (Housed Appliance) :=
  map (fun r => mkHoused (mkAppliance (Plug.to_kwh_row (plug (data r)))
                                      (appliance (data r)))
                         (household r))
      combined_plugs.

(** The folders of the notebook with the labels given to their frames. *)
Definition sm_folders : list (string * string) :=
  [("Household 4", "eco/04_sm_csv"); ("Household 5", "eco/05_sm_csv");
   ("Household 6", "eco/06_sm_csv")].

Definition plug_folders : list (string * string * string) :=
  ((fun code => ("Household 4", code, "eco/04_plugs_csv/" +:+ code))
     <$> ["01"; "02"; "03"; "04"; "05"; "06"; "07"; "08"])
  ++ ((fun code => ("Household 5", code, "eco/05_plugs_csv/" +:+ code))
        <$> ["01"; "02"; "03"; "04"; "05"; "06"; "07"; "08"])
  ++ ((fun code => ("Household 6", code, "eco/06_plugs_csv/" +:+ code))
        <$> ["01"; "02"; "03"; "04"; "05"; "06"; "07"]).


(** The number of columns of a file just read. *)
Definition file_width (lines : list Line) : nat := S (Raw.extra_width lines).

(** The labels after column 0 of a frame built from files: the [a] further
    columns of the first file, the date, and the [b] columns that wider
    files add after it. *)
Definition shape (a b : nat) : list label :=
  map (fun j => Col (S j)) (seq 0 a)
  ++ DateCol :: map (fun j => Col (S j)) (seq a b).

(** The test of the [if] in the loop. *)
Definition is_csv (file : string) : Prop := endswith file ".csv".

(** The files the loop of [load_data] reads, in the order it reads them. *)
Definition csv_files (names : list string) : list string :=
  filter is_csv (sorted names).

(** The rows of a frame with a cell of a given column equal to [k]. *)
Definition rows_of {A K} `{EqDecision K} (key : A -> K) (k : K) (rows : list A)
    : list A :=
  filter (fun r => key r = k) rows.

(** * Properties *)

(** ** The error monad *)

Lemma bind_Ok {A B} (m : result A) (f : A -> result B) (b : B) :
  m ≫= f = Ok b ↔ ∃ a, m = Ok a ∧ f a = Ok b.
Proof.
  destruct m as [a|e]; simpl; split.
  - eauto.
  - by intros (a' & [= <-] & ?).
  - discriminate.
  - by intros (? & [=] & _).
Qed.

Lemma bind_Raise {A B} (m : result A) (f : A -> result B) (e : exn) :
  m ≫= f = Raise e ↔ m = Raise e ∨ ∃ a, m = Ok a ∧ f a = Raise e.
Proof.
  destruct m as [a|e']; simpl; split.
  - eauto.
  - intros [[=]|(a' & [= <-] & ?)]; done.
  - intros [= ->]. by left.
  - intros [[= ->]|(? & [=] & _)]; done.
Qed.

Section mapM_result.

Context {A B : Type} (f : A -> result B).

Lemma mapM_Ok (l : list A) (k : list B) :
  mapM f l = Ok k ↔ Forall2 (fun x y => f x = Ok y) l k.
Proof.
  revert k. induction l as [|x l IH]; intros k; simpl.
  - split; [intros [= <-]; constructor | by inversion 1].
  - split.
    + intros (y & Hy & Hk)%bind_Ok. apply bind_Ok in Hk as (k' & Hk' & [= <-]).
      constructor; [done | by apply IH].
    + inversion 1 as [|? y ? k' Hy Hk']; subst.
      apply IH in Hk'. rewrite Hy. simpl. by rewrite Hk'.
Qed.

(** The exception of a failing pass is the one of its first failing
    element. *)
Lemma mapM_Raise (l : list A) (e : exn) :
  mapM f l = Raise e ↔
  ∃ l1 x l2, l = l1 ++ x :: l2 ∧ Forall (fun y => is_Ok (f y)) l1
             ∧ f x = Raise e.
Proof.
  induction l as [|x l IH]; simpl.
  - split; [done | by intros ([] & ? & ? & ? & _)].
  - split.
    + intros [Hx | (y & Hy & Hk)]%bind_Raise.
      * by exists [], x, l.
      * apply bind_Raise in Hk as [Hk | (? & _ & [=])].
        apply IH in Hk as (l1 & x' & l2 & -> & Hl1 & Hx').
        exists (x :: l1), x', l2. split_and!; [done | | done].
        constructor; [by rewrite Hy | done].
    + intros (l1 & x' & l2 & Heq & Hl1 & Hx').
      destruct l1 as [|x1 l1]; simplify_eq/=.
      * by rewrite Hx'.
      * inversion_clear Hl1 as [|? ? Hx1 Hl1'].
        destruct (f x1) as [y|] eqn:Hy; [simpl | done].
        assert (mapM f (l1 ++ x' :: l2) = Raise e) as ->; [|done].
        apply IH. by exists l1, x', l2.
Qed.

Lemma mapM_Raise_1 (l : list A) (e : exn) :
  mapM f l = Raise e → ∃ x, x ∈ l ∧ f x = Raise e.
Proof.
  intros (l1 & x & l2 & -> & _ & Hx)%mapM_Raise.
  exists x. split; [|done]. rewrite elem_of_app, elem_of_cons. auto.
Qed.

Lemma mapM_not_Ok (l : list A) (x : A) :
  x ∈ l → is_Ok (f x) = false → is_Ok (mapM f l) = false.
Proof.
  intros Hx Hf. destruct (mapM f l) as [k|] eqn:Hk; [|done].
  apply mapM_Ok in Hk.
  apply list_elem_of_lookup in Hx as [i Hi].
  destruct (Forall2_lookup_l _ _ _ _ _ Hk Hi) as (y & _ & Hy).
  by rewrite Hy in Hf.
Qed.

End mapM_result.

(** ** The loader *)

Lemma sorted_Permutation (names : list string) : sorted names ≡ₚ names.
Proof. apply merge_sort_Permutation. Qed.

Lemma sorted_StronglySorted (names : list string) :
  StronglySorted String.le (sorted names).
Proof. apply StronglySorted_merge_sort; apply _. Qed.

Lemma StronglySorted_filter {A} (R : relation A) (P : A -> Prop)
    `{forall x, Decision (P x)} (l : list A) :
  StronglySorted R l → StronglySorted R (filter P l).
Proof.
  induction 1 as [|x l Hl IH Hx]; [constructor|].
  rewrite filter_cons. destruct (decide (P x)); [|done].
  constructor; [done|].
  apply Forall_forall. intros y [_ Hy]%list_elem_of_filter.
  by eapply Forall_forall in Hx.
Qed.

Lemma csv_files_sorted (names : list string) :
  StronglySorted String.le (csv_files names).
Proof. apply StronglySorted_filter, sorted_StronglySorted. Qed.

Lemma csv_files_Permutation (names : list string) :
  csv_files names ≡ₚ filter is_csv names.
Proof. unfold csv_files. by rewrite sorted_Permutation. Qed.

Lemma elem_of_csv_files (names : list string) (file : string) :
  file ∈ csv_files names ↔ file ∈ names ∧ endswith file ".csv" = true.
Proof.
  rewrite csv_files_Permutation, list_elem_of_filter.
  unfold is_csv. rewrite Is_true_true. tauto.
Qed.

Lemma earlier_Stamp (a b : Z) : earlier (Stamp a) (Stamp b) ↔ a < b.
Proof. done. Qed.

Lemma earlier_inv (d c : Timestamp) :
  earlier d c ↔ ∃ a b, d = Stamp a ∧ c = Stamp b ∧ a < b.
Proof.
  split.
  - destruct d as [a|], c as [b|]; simpl; [|done..]. intros ?. by exists a, b.
  - by intros (a & b & -> & -> & ?).
Qed.

Lemma earlier_NaT_r (d : Timestamp) : ¬ earlier d NaT.
Proof. destruct d; simpl; tauto. Qed.

Lemma earlier_NaT_l (c : Timestamp) : ¬ earlier NaT c.
Proof. simpl. tauto. Qed.

Section LoaderFacts.

Variable to_datetime : string -> result Timestamp.
Variable to_timestamp : string -> result Timestamp.
Variable fs : FileSystem.

Lemma load_file_Ok folder_path file df :
  load_file to_datetime fs folder_path file = Ok df ↔
  ∃ rows d, read_csv fs (path_join folder_path file) = Ok rows
            ∧ to_datetime (drop_last4 file) = Ok d
            ∧ df = Raw.set_date rows d.
Proof.
  unfold load_file. rewrite bind_Ok. split.
  - intros (rows & Hrows & (d & Hd & [= <-])%bind_Ok). eauto.
  - intros (rows & d & Hrows & Hd & ->). exists rows. split; [done|].
    by rewrite Hd.
Qed.

Lemma load_file_Raise folder_path file e :
  load_file to_datetime fs folder_path file = Raise e ↔
  read_csv fs (path_join folder_path file) = Raise e
  ∨ is_Ok (read_csv fs (path_join folder_path file))
    ∧ to_datetime (drop_last4 file) = Raise e.
Proof.
  unfold load_file.
  destruct (read_csv fs _) as [rows|e1]; simpl.
  - destruct (to_datetime _) as [d|e2]; simpl.
    + split; [done | by intros [|[_ ?]]].
    + split; [intros [= ->]; by right | by intros [|[_ [= ->]]]].
  - split; [intros [= ->]; by left | by intros [[= ->]|[[] _]]].
Qed.

(** The loop is one pass of [load_file] over the [.csv] names. *)
Lemma load_loop_mapM folder_path files data :
  load_loop to_datetime fs folder_path files data =
  frames ← mapM (load_file to_datetime fs folder_path) (filter is_csv files);
  mret (data ++ frames).
Proof.
  revert data. induction files as [|file files IH]; intros data; simpl.
  - by rewrite app_nil_r.
  - destruct (endswith file ".csv") eqn:Hcsv.
    + rewrite filter_cons_True by (unfold is_csv; by rewrite Hcsv). simpl.
      destruct (load_file _ _ _ file) as [df|e]; simpl; [|done].
      rewrite IH. destruct (mapM _ _) as [frames|e]; simpl; [|done].
      by rewrite <-app_assoc.
    + rewrite filter_cons_False by (unfold is_csv; rewrite Hcsv; tauto).
      apply IH.
Qed.

Lemma load_data_unfold time_point folder_path names :
  listdir fs folder_path = Ok names →
  load_data to_datetime to_timestamp fs time_point folder_path =
  data ← mapM (load_file to_datetime fs folder_path) (csv_files names);
  combined_data ← Raw.pd_concat data;
  before to_timestamp time_point combined_data.
Proof.
  intros Hnames. unfold load_data. rewrite Hnames. simpl.
  rewrite load_loop_mapM. fold (csv_files names).
  by destruct (mapM _ _).
Qed.

Lemma load_files_Ok folder_path files tables dates :
  Forall2 (fun file rows => read_csv fs (path_join folder_path file) = Ok rows)
          files tables →
  Forall2 (fun file d => to_datetime (drop_last4 file) = Ok d) files dates →
  mapM (load_file to_datetime fs folder_path) files =
  Ok (zip_with Raw.set_date tables dates).
Proof.
  intros Htables. revert dates.
  induction Htables as [|file rows files tables Hrows _ IH];
    intros dates Hdates; inversion Hdates as [|? d ? dates' Hd Hdates']; subst.
  - done.
  - assert (load_file to_datetime fs folder_path file
            = Ok (Raw.set_date rows d)) as Hfile.
    { apply load_file_Ok. by exists rows, d. }
    simpl. rewrite Hfile. simpl. by rewrite (IH _ Hdates').
Qed.

Lemma load_files_Ok_inv folder_path files frames :
  mapM (load_file to_datetime fs folder_path) files = Ok frames →
  ∃ tables dates,
    Forall2 (fun file rows => read_csv fs (path_join folder_path file) = Ok rows)
            files tables
    ∧ Forall2 (fun file d => to_datetime (drop_last4 file) = Ok d) files dates
    ∧ frames = zip_with Raw.set_date tables dates.
Proof.
  intros Hframes%mapM_Ok.
  induction Hframes as [|file df files frames Hdf _ IH].
  - by exists [], [].
  - destruct IH as (tables & dates & Htables & Hdates & ->).
    apply load_file_Ok in Hdf as (rows & d & Hrows & Hd & ->).
    exists (rows :: tables), (d :: dates). by repeat constructor.
Qed.

(** What a successful load returns, in terms of the frames of the files. *)
Lemma load_data_Ok_frames time_point folder_path df :
  load_data to_datetime to_timestamp fs time_point folder_path = Ok df ↔
  ∃ names frames c,
    listdir fs folder_path = Ok names
    ∧ mapM (load_file to_datetime fs folder_path) (csv_files names) = Ok frames
    ∧ frames ≠ []
    ∧ to_timestamp time_point = Ok c
    ∧ df = Raw.mkFrame (Raw.union_labels (map Raw.labels frames))
             (filter (fun r => earlier (Raw.date r) c)
                     (concat (map Raw.rows frames))).
Proof.
  split.
  - intros Hload. destruct (listdir fs folder_path) as [names|e] eqn:Hnames;
      [|by unfold load_data in Hload; rewrite Hnames in Hload].
    rewrite (load_data_unfold _ _ _ Hnames) in Hload.
    apply bind_Ok in Hload as (frames & Hframes & Hload).
    apply bind_Ok in Hload as (combined & Hcombined & Hbefore).
    unfold before in Hbefore.
    destruct (to_timestamp time_point) as [c|] eqn:Hc; [|done].
    injection Hbefore as <-. exists names, frames, c.
    unfold Raw.pd_concat in Hcombined. destruct frames; [done|].
    by injection Hcombined as <-.
  - intros (names & frames & c & Hnames & Hframes & Hne & Hc & ->).
    rewrite (load_data_unfold _ _ _ Hnames), Hframes. simpl.
    unfold Raw.pd_concat, before. destruct frames; [done|]. simpl.
    by rewrite Hc.
Qed.

End LoaderFacts.

Section LoaderTheorems.

Variable to_datetime : string -> result Timestamp.
Variable to_timestamp : string -> result Timestamp.
Variable fs : FileSystem.

(** C1.  For every folder and cutoff, [load_data] returns a frame exactly
    when the folder can be listed, holds at least one [.csv] file, every
    [.csv] file can be read, [pd.to_datetime] accepts its name without the
    extension, and the comparison accepts the cutoff.  It reads the [.csv]
    files of the folder, each once, in increasing name order; every row of a
    file carries the date of its file name; the frames are concatenated; and
    the frame returned has exactly the rows dated strictly before the
    cutoff, in order: each of its rows has a date, the cutoff is a date, and
    the first is below the second; no row dated at or after the cutoff is in
    it, nor a row without a date. *)
Theorem load_data_before_cutoff time_point folder_path df :
  load_data to_datetime to_timestamp fs time_point folder_path = Ok df ↔
  ∃ names tables dates c,
    listdir fs folder_path = Ok names
    ∧ StronglySorted String.le (csv_files names)
    ∧ csv_files names ≡ₚ filter is_csv names
    ∧ csv_files names ≠ []
    ∧ Forall2 (fun file rows =>
                 read_csv fs (path_join folder_path file) = Ok rows)
              (csv_files names) tables
    ∧ Forall2 (fun file d => to_datetime (drop_last4 file) = Ok d)
              (csv_files names) dates
    ∧ to_timestamp time_point = Ok c
    ∧ Raw.labels df
      = Raw.union_labels (map Raw.labels (zip_with Raw.set_date tables dates))
    ∧ Raw.rows df
      = filter (fun r => earlier (Raw.date r) c)
               (concat (map Raw.rows (zip_with Raw.set_date tables dates)))
    ∧ Forall (fun r => ∃ d t, Raw.date r = Stamp d ∧ c = Stamp t ∧ d < t)
             (Raw.rows df)
    ∧ ∀ r, r ∈ concat (map Raw.rows (zip_with Raw.set_date tables dates)) →
           ¬ earlier (Raw.date r) c → r ∉ Raw.rows df.
Proof.
  rewrite load_data_Ok_frames. split.
  - intros (names & frames & c & Hnames & Hframes & Hne & Hc & ->).
    apply load_files_Ok_inv in Hframes as (tables & dates & Htables & Hdates & ->).
    exists names, tables, dates, c. simpl. split_and!; try done.
    + apply csv_files_sorted.
    + apply csv_files_Permutation.
    + intros Hnil. rewrite Hnil in Htables. inversion Htables; subst.
      by apply Hne.
    + apply Forall_forall. by intros r [?%earlier_inv _]%list_elem_of_filter.
    + by intros r _ Hge [Hlt _]%list_elem_of_filter.
  - intros (names & tables & dates & c & Hnames & _ & _ & Hne & Htables
            & Hdates & Hc & Hlabels & Hrows & _).
    exists names, (zip_with Raw.set_date tables dates), c.
    split_and!; try done.
    + by apply load_files_Ok.
    + intros Hnil. apply Hne.
      apply Forall2_length in Htables. apply Forall2_length in Hdates.
      apply (f_equal length) in Hnil. rewrite length_zip_with in Hnil.
      simpl in Hnil. apply length_zero_iff_nil. lia.
    + destruct df as [ls rs]. simpl in *. by subst.
Qed.

(** C5, as the code has it.  A folder without a [.csv] file makes
    [pd.concat] raise: the loader returns no frame. *)
Theorem load_data_no_csv time_point folder_path names :
  listdir fs folder_path = Ok names →
  filter is_csv names = [] →
  load_data to_datetime to_timestamp fs time_point folder_path
  = Raise NoObjectsToConcatenate.
Proof.
  intros Hnames Hnil. rewrite (load_data_unfold _ _ _ _ _ _ Hnames).
  assert (csv_files names = []) as ->; [|done].
  apply Permutation_nil_r. by rewrite csv_files_Permutation, Hnil.
Qed.

(** C6, as the code has it.  A [.csv] file on whose name without the
    extension [pd.to_datetime] raises makes the whole load raise; no frame
    is returned.  When every [.csv] file of the folder can be read, the
    exception is the one [pd.to_datetime] raised on a [.csv] file name of
    the folder. *)
Theorem load_data_bad_date time_point folder_path names file e :
  listdir fs folder_path = Ok names →
  file ∈ names →
  endswith file ".csv" = true →
  to_datetime (drop_last4 file) = Raise e →
  (∃ e', load_data to_datetime to_timestamp fs time_point folder_path
         = Raise e')
  ∧ (Forall (fun f => is_Ok (read_csv fs (path_join folder_path f)))
            (csv_files names) →
     ∃ file' e',
       file' ∈ names ∧ endswith file' ".csv" = true
       ∧ to_datetime (drop_last4 file') = Raise e'
       ∧ load_data to_datetime to_timestamp fs time_point folder_path
         = Raise e').
Proof.
  intros Hnames Hfile Hcsv He.
  rewrite (load_data_unfold _ _ _ _ _ _ Hnames).
  assert (file ∈ csv_files names) as Hin by by apply elem_of_csv_files.
  assert (is_Ok (load_file to_datetime fs folder_path file) = false) as Hbad.
  { unfold load_file. destruct (read_csv fs _); [simpl|done]. by rewrite He. }
  pose proof (mapM_not_Ok _ _ _ Hin Hbad) as Hmap.
  destruct (mapM _ (csv_files names)) as [|e'] eqn:Hloop; [done|]. simpl.
  split; [by exists e'|]. intros Hread.
  apply mapM_Raise_1 in Hloop as (file' & Hin' & Hfile').
  apply load_file_Raise in Hfile' as [Hr|[_ Hd]].
  - eapply Forall_forall in Hread; [|done]. by rewrite Hr in Hread.
  - apply elem_of_csv_files in Hin' as [??]. by exists file', e'.
Qed.

End LoaderTheorems.

(** The example of the loader: of three daily files dated 2012-06-27 to
    2012-06-29, the cutoff 2012-06-29 keeps the rows of the first two. *)
Lemma load_data_before_cutoff_witness :
  csv_files Sample.names
  = ["2012-06-27.csv"; "2012-06-28.csv"; "2012-06-29.csv"]
  ∧ Iso.to_timestamp "2012-06-29" = Ok Sample.d29
  ∧ load_data Iso.to_datetime Iso.to_timestamp Sample.fs "2012-06-29"
      Sample.folder
    = Ok (Sample.frame [Sample.row 10 Sample.d27; Sample.row 11 Sample.d27;
                        Sample.row 20 Sample.d28]).
Proof.
  assert (csv_files Sample.names
          = ["2012-06-27.csv"; "2012-06-28.csv"; "2012-06-29.csv"]) as Hcsv
    by (vm_compute; reflexivity).
  split; [exact Hcsv|]. split; [reflexivity|].
  apply (load_data_before_cutoff Iso.to_datetime Iso.to_timestamp Sample.fs
           "2012-06-29" Sample.folder).
  exists Sample.names,
    [[Sample.line 10; Sample.line 11]; [Sample.line 20];
     [Sample.line 30; Sample.line 31]],
    [Sample.d27; Sample.d28; Sample.d29], Sample.d29.
  rewrite Hcsv. split_and!.
  - reflexivity.
  - repeat constructor.
  - rewrite <-Hcsv. apply csv_files_Permutation.
  - discriminate.
  - repeat constructor.
  - repeat constructor.
  - reflexivity.
  - reflexivity.
  - reflexivity.
  - simpl.
    repeat (constructor;
            [first [by exists Sample.ns27, Sample.ns29
                   | by exists Sample.ns28, Sample.ns29]|]).
    constructor.
  - intros r _ Hge Hin. apply Hge.
    assert (Forall (fun r => earlier (Raw.date r) Sample.d29)
              [Sample.row 10 Sample.d27; Sample.row 11 Sample.d27;
               Sample.row 20 Sample.d28]) as Hall
      by (repeat constructor).
    eapply Forall_forall in Hall; [exact Hall | exact Hin].
Defined.

(** A folder that exists and holds no file: the load raises, it does not
    return a frame without rows. *)
Lemma load_data_empty_dir_raises :
  listdir Sample.fs "eco/empty" = Ok []
  ∧ load_data Iso.to_datetime Iso.to_timestamp Sample.fs time_point "eco/empty"
    = Raise NoObjectsToConcatenate
  ∧ ∀ df, load_data Iso.to_datetime Iso.to_timestamp Sample.fs time_point
            "eco/empty" ≠ Ok df.
Proof. split; [reflexivity|]. split; [reflexivity|]. discriminate. Qed.

Lemma load_data_no_csv_witness :
  listdir Sample.fs "eco/notes" = Ok ["README.txt"]
  ∧ filter is_csv ["README.txt"] = []
  ∧ load_data Iso.to_datetime Iso.to_timestamp Sample.fs time_point "eco/notes"
    = Raise NoObjectsToConcatenate.
Proof.
  split; [reflexivity|]. split; [reflexivity|].
  apply (load_data_no_csv Iso.to_datetime Iso.to_timestamp Sample.fs time_point
           "eco/notes" ["README.txt"]); reflexivity.
Defined.

(** A file named [.csv] in a folder with a daily file.  The name passes the
    test of the loop, and what is left of it without the extension is the
    empty string, which is not a calendar date: [pd.to_datetime] returns the
    missing timestamp for it and raises nothing.  The load does not fail: it
    returns the rows of the daily file, and the row of the file named
    [.csv] is dropped by the cutoff filter. *)
Lemma load_data_nat_stem_returns :
  listdir Sample.fs "eco/nat" = Ok ["2012-06-27.csv"; ".csv"]
  ∧ endswith ".csv" ".csv" = true
  ∧ drop_last4 ".csv" = ""
  ∧ Iso.to_datetime "" = Ok NaT
  ∧ (∀ ns, Iso.to_datetime "" ≠ Ok (Stamp ns))
  ∧ read_csv Sample.fs (path_join "eco/nat" ".csv") = Ok [Sample.line 98]
  ∧ load_data Iso.to_datetime Iso.to_timestamp Sample.fs time_point "eco/nat"
    = Ok (Sample.frame [Sample.row 10 Sample.d27])
  ∧ ∀ e, load_data Iso.to_datetime Iso.to_timestamp Sample.fs time_point
           "eco/nat" ≠ Raise e.
Proof.
  assert (load_data Iso.to_datetime Iso.to_timestamp Sample.fs time_point
            "eco/nat" = Ok (Sample.frame [Sample.row 10 Sample.d27])) as Hload
    by reflexivity.
  split_and!; try reflexivity.
  - discriminate.
  - rewrite Hload. discriminate.
Qed.

Lemma load_data_bad_date_witness :
  listdir Sample.fs "eco/bad"
  = Ok ["2012-06-27.csv"; "backup.csv"; ".csv"; "2012-06-28.csv"]
  ∧ endswith "backup.csv" ".csv" = true
  ∧ Iso.to_datetime (drop_last4 "backup.csv") = Raise (DateParseError "backup")
  ∧ ∃ e, load_data Iso.to_datetime Iso.to_timestamp Sample.fs time_point
           "eco/bad" = Raise e.
Proof.
  split; [reflexivity|]. split; [reflexivity|]. split; [reflexivity|].
  apply (load_data_bad_date Iso.to_datetime Iso.to_timestamp Sample.fs
           time_point "eco/bad"
           ["2012-06-27.csv"; "backup.csv"; ".csv"; "2012-06-28.csv"]
           "backup.csv" (DateParseError "backup")).
  - reflexivity.
  - apply list_elem_of_further, list_elem_of_here.
  - reflexivity.
  - reflexivity.
Defined.

(** In the folder above the three files before [backup.csv] load, the one
    named [.csv] without a date, and the exception is the format error of
    [backup.csv]. *)
Example load_data_bad_date_exception :
  load_data Iso.to_datetime Iso.to_timestamp Sample.fs time_point "eco/bad"
  = Raise (DateParseError "backup").
Proof. reflexivity. Qed.

(** ** The unit conversion *)

Lemma raw_per_kwh_value : raw_per_kwh = Qc_of_Z 3600000.
Proof. apply Qc_is_canon. reflexivity. Qed.

Lemma raw_per_kwh_nonzero : raw_per_kwh ≠ 0%Qc.
Proof. intros H. apply (f_equal Qcanon.this) in H. discriminate H. Qed.

Lemma kwh_mult (x : Qc) : (kwh x * raw_per_kwh)%Qc = x.
Proof. unfold kwh. field. apply raw_per_kwh_nonzero. Qed.

Lemma kwh_inj (x y : Qc) : kwh x = kwh y → x = y.
Proof. intros H. by rewrite <-(kwh_mult x), <-(kwh_mult y), H. Qed.

Lemma kwh_0 : kwh 0 = 0%Qc.
Proof. unfold kwh. field. apply raw_per_kwh_nonzero. Qed.

(** Naming the columns, by position. *)
Lemma Sm_values_inj (r r' : Sm.Row) : Sm.values r = Sm.values r' → r = r'.
Proof. destruct r, r'. unfold Sm.values. simpl. by intros [= -> -> -> -> -> -> -> -> -> -> -> -> -> -> -> -> ->]. Qed.

Lemma Plug_values_inj (r r' : Plug.Row) : Plug.values r = Plug.values r' → r = r'.
Proof. destruct r, r'. unfold Plug.values. simpl. by intros [= -> ->]. Qed.

Lemma map_inj_eq {A B} (f : A -> B) (l k : list A) :
  (∀ x y, f x = f y → x = y) → map f l = map f k → l = k.
Proof.
  intros Hf. revert k. induction l as [|x l IH]; intros [|y k]; simpl;
    try done.
  intros [= Hxy Hlk]. f_equal; [by apply Hf | by apply IH].
Qed.

Lemma Sm_set_columns_cases (df : DataFrame) :
  length (Raw.columns df) = 17%nat
  ∧ (∃ named, Sm.set_columns df = Ok named
              ∧ map Sm.values named = map (Raw.values df) (Raw.rows df))
  ∨ length (Raw.columns df) ≠ 17%nat
    ∧ Sm.set_columns df = Raise (LengthMismatch (length (Raw.columns df)) 17).
Proof.
  destruct df as [ls rs]. unfold Sm.set_columns, Raw.columns, Raw.values.
  simpl.
  do 16 (destruct ls as [|? ls]; [right; split; [simpl; lia | done]|]).
  destruct ls as [|? ls]; [|right; split; [simpl; lia | done]].
  left. split; [done|]. eexists. split; [done|].
  rewrite map_map. by apply map_ext.
Qed.

Lemma Plug_set_columns_cases (df : DataFrame) :
  length (Raw.columns df) = 2%nat
  ∧ (∃ named, Plug.set_columns df = Ok named
              ∧ map Plug.values named = map (Raw.values df) (Raw.rows df))
  ∨ length (Raw.columns df) ≠ 2%nat
    ∧ Plug.set_columns df
      = Raise (LengthMismatch (length (Raw.columns df)) 2).
Proof.
  destruct df as [ls rs]. unfold Plug.set_columns, Raw.columns, Raw.values.
  simpl.
  destruct ls as [|? ls]; [right; split; [simpl; lia | done]|].
  destruct ls as [|? ls]; [|right; split; [simpl; lia | done]].
  left. split; [done|]. eexists. split; [done|].
  rewrite map_map. by apply map_ext.
Qed.

Lemma Sm_set_columns_Ok (df : DataFrame) (sm : Sm.Frame) :
  Sm.set_columns df = Ok sm
  ↔ length (Raw.columns df) = 17%nat
    ∧ map Sm.values sm = map (Raw.values df) (Raw.rows df).
Proof.
  destruct (Sm_set_columns_cases df) as [[Hlen (named & Hnamed & Hvalues)]
                                        |[Hlen Hraise]].
  - rewrite Hnamed. split.
    + by intros [= <-].
    + intros [_ Hsm]. f_equal. apply (map_inj_eq Sm.values).
      * apply Sm_values_inj.
      * congruence.
  - rewrite Hraise. split; [done | by intros [? _]].
Qed.

Lemma Plug_set_columns_Ok (df : DataFrame) (pl : Plug.Frame) :
  Plug.set_columns df = Ok pl
  ↔ length (Raw.columns df) = 2%nat
    ∧ map Plug.values pl = map (Raw.values df) (Raw.rows df).
Proof.
  destruct (Plug_set_columns_cases df) as [[Hlen (named & Hnamed & Hvalues)]
                                          |[Hlen Hraise]].
  - rewrite Hnamed. split.
    + by intros [= <-].
    + intros [_ Hpl]. f_equal. apply (map_inj_eq Plug.values).
      * apply Plug_values_inj.
      * congruence.
  - rewrite Hraise. split; [done | by intros [? _]].
Qed.

(** The first value of a row is its cell of column 0, under the names as
    in the frame of the loader. *)
Lemma Sm_values_column0 (df : DataFrame) (sm : Sm.Frame) :
  map Sm.values sm = map (Raw.values df) (Raw.rows df) →
  map Sm.powerallphases sm = Raw.column0 df.
Proof.
  unfold Raw.column0. generalize (Raw.rows df). intros rs. revert rs.
  induction sm as [|r sm IH]; intros [|r' rs] Hv; try done.
  injection Hv as Hr _ Hrs. simpl. f_equal; [done | by apply IH].
Qed.

Lemma Plug_values_column0 (df : DataFrame) (pl : Plug.Frame) :
  map Plug.values pl = map (Raw.values df) (Raw.rows df) →
  map Plug.power pl = Raw.column0 df.
Proof.
  unfold Raw.column0. generalize (Raw.rows df). intros rs. revert rs.
  induction pl as [|r pl IH]; intros [|r' rs] Hv; try done.
  injection Hv as Hr _ Hrs. simpl. f_equal; [done | by apply IH].
Qed.

Lemma Sm_to_kwh_power (sm : Sm.Frame) :
  map Sm.powerallphases (Sm.to_kwh sm) = map kwh (map Sm.powerallphases sm).
Proof. unfold Sm.to_kwh. rewrite !map_map. by apply map_ext. Qed.

Lemma Plug_to_kwh_power (pl : Plug.Frame) :
  map Plug.power (Plug.to_kwh pl) = map kwh (map Plug.power pl).
Proof. unfold Plug.to_kwh. rewrite !map_map. by apply map_ext. Qed.

(** C2.  On a frame of seventeen columns (sixteen of the files and the
    date) the meter normaliser names the columns, each at its position, and
    divides every cell of the column at position 0, now [powerallphases], by
    3,600,000; on a frame of two columns the plug normaliser does the same
    with [power].  The conversion divides the power cell of every row of a
    named frame by 3,600,000, and a raw reading of 3,600,000 becomes
    exactly 1. *)
Theorem to_kwh_divides (df : DataFrame) (sm : Sm.Frame) (pl : Plug.Frame) :
  (length (Raw.columns df) = 17%nat →
   ∃ named,
     Sm.set_columns df = Ok named
     ∧ map Sm.values named = map (Raw.values df) (Raw.rows df)
     ∧ Sm.normalize df = Ok (Sm.to_kwh named)
     ∧ map Sm.powerallphases (Sm.to_kwh named)
       = map (fun x => (x / Qc_of_Z 3600000)%Qc) (Raw.column0 df))
  ∧ map Sm.powerallphases (Sm.to_kwh sm)
    = map (fun r => (Sm.powerallphases r / Qc_of_Z 3600000)%Qc) sm
  ∧ (length (Raw.columns df) = 2%nat →
     ∃ named,
       Plug.set_columns df = Ok named
       ∧ map Plug.values named = map (Raw.values df) (Raw.rows df)
       ∧ Plug.normalize df = Ok (Plug.to_kwh named)
       ∧ map Plug.power (Plug.to_kwh named)
         = map (fun x => (x / Qc_of_Z 3600000)%Qc) (Raw.column0 df))
  ∧ map Plug.power (Plug.to_kwh pl)
    = map (fun r => (Plug.power r / Qc_of_Z 3600000)%Qc) pl
  ∧ kwh (Qc_of_Z 3600000) = 1%Qc.
Proof.
  split_and!.
  - intros Hlen.
    destruct (Sm_set_columns_cases df) as [[_ (named & Hnamed & Hvalues)]
                                          |[? _]]; [|done].
    exists named. split_and!; [done | done | |].
    + unfold Sm.normalize. by rewrite Hnamed.
    + rewrite Sm_to_kwh_power, (Sm_values_column0 df) by done.
      apply map_ext. intros x. unfold kwh. by rewrite raw_per_kwh_value.
  - unfold Sm.to_kwh. rewrite map_map. apply map_ext. intros r. simpl.
    unfold kwh. by rewrite raw_per_kwh_value.
  - intros Hlen.
    destruct (Plug_set_columns_cases df) as [[_ (named & Hnamed & Hvalues)]
                                            |[? _]]; [|done].
    exists named. split_and!; [done | done | |].
    + unfold Plug.normalize. by rewrite Hnamed.
    + rewrite Plug_to_kwh_power, (Plug_values_column0 df) by done.
      apply map_ext. intros x. unfold kwh. by rewrite raw_per_kwh_value.
  - unfold Plug.to_kwh. rewrite map_map. apply map_ext. intros r. simpl.
    unfold kwh. by rewrite raw_per_kwh_value.
  - apply Qc_is_canon. reflexivity.
Qed.

(** A plug frame of one row: the reading 3,600,000 under [power], the date
    under [date]. *)
Lemma to_kwh_divides_witness :
  Plug.normalize (Sample.frame [Sample.row 3600000 Sample.d27])
  = Ok [Plug.mkRow (kwh (Sample.q 3600000)) (At Sample.d27)]
  ∧ ∃ named,
      Plug.set_columns (Sample.frame [Sample.row 3600000 Sample.d27])
      = Ok named
      ∧ map Plug.power (Plug.to_kwh named)
        = map (fun x => (x / Qc_of_Z 3600000)%Qc) [Sample.q 3600000].
Proof.
  split; [reflexivity|].
  destruct (to_kwh_divides (Sample.frame [Sample.row 3600000 Sample.d27])
              [] []) as (_ & _ & Hplug & _).
  destruct Hplug as (named & Hnamed & _ & _ & Hpower); [reflexivity|].
  by exists named.
Defined.

(** C7.  The conversion is linear, and multiplying the converted column by
    3,600,000 gives back the raw column, exactly (over the rationals). *)
Theorem to_kwh_reversible (sm : Sm.Frame) (pl : Plug.Frame) (a x y : Qc) :
  kwh (a * x + y) = (a * kwh x + kwh y)%Qc
  ∧ (kwh x * Qc_of_Z 3600000)%Qc = x
  ∧ map (fun r => (Sm.powerallphases r * Qc_of_Z 3600000)%Qc) (Sm.to_kwh sm)
    = map Sm.powerallphases sm
  ∧ map (fun r => (Plug.power r * Qc_of_Z 3600000)%Qc) (Plug.to_kwh pl)
    = map Plug.power pl.
Proof.
  rewrite <-raw_per_kwh_value. split_and!.
  - unfold kwh. field. apply raw_per_kwh_nonzero.
  - apply kwh_mult.
  - unfold Sm.to_kwh. rewrite map_map. apply map_ext. intros r. simpl.
    apply kwh_mult.
  - unfold Plug.to_kwh. rewrite map_map. apply map_ext. intros r. simpl.
    apply kwh_mult.
Qed.

(** The same on binary64 cells: the reading 3,600,000 converts to exactly
    1.0, and the way back is exact up to rounding only (the raw reading 1
    comes back as the float just below 1). *)
Example kwh64_readings :
  kwh64 3600000%float = 1%float
  ∧ (kwh64 7 * 3600000)%float = 7%float
  ∧ (kwh64 1 * 3600000)%float = 0x1.fffffffffffffp-1%float.
Proof. repeat split; reflexivity. Qed.

(** What the rounding, the underflow and the overflow of binary64 do to the
    conversion, which the exact cells do not show: two neighbouring readings
    convert to the same number, a tiny positive reading converts to zero,
    and the quotient of two converted readings can be infinite. *)
Example kwh64_rounding :
  PrimFloat.ltb 7500000 (PrimFloat.next_up 7500000) = true
  ∧ kwh64 7500000 = kwh64 (PrimFloat.next_up 7500000)
  ∧ PrimFloat.ltb 0 0x1p-1060 = true
  ∧ kwh64 0x1p-1060 = 0%float
  ∧ (kwh64 0x1p1000 / kwh64 0x1p-1000 * 100)%float = infinity.
Proof. repeat split; reflexivity. Qed.

(** C8.  Converting a converted frame divides the raw column by 3,600,000
    twice, and the conversion is not idempotent: a cell is left unchanged by
    the second conversion only when it is zero. *)
Theorem to_kwh_twice (sm : Sm.Frame) (pl : Plug.Frame) (x : Qc) :
  map Sm.powerallphases (Sm.to_kwh (Sm.to_kwh sm))
  = map (fun r => (Sm.powerallphases r / Qc_of_Z 3600000 / Qc_of_Z 3600000)%Qc)
        sm
  ∧ map Plug.power (Plug.to_kwh (Plug.to_kwh pl))
    = map (fun r => (Plug.power r / Qc_of_Z 3600000 / Qc_of_Z 3600000)%Qc) pl
  ∧ (kwh (kwh x) = kwh x ↔ x = 0%Qc)
  ∧ kwh (kwh (Qc_of_Z 3600000)) ≠ kwh (Qc_of_Z 3600000).
Proof.
  assert (∀ z, kwh (kwh z) = kwh z ↔ z = 0%Qc) as Hfix.
  { intros z. split.
    - intros H%kwh_inj. pose proof (kwh_mult z) as Hm. rewrite H in Hm.
      assert ((z * (raw_per_kwh - 1))%Qc = 0%Qc) as Hz.
      { transitivity (z * raw_per_kwh - z)%Qc; [ring | rewrite Hm; ring]. }
      apply Qcmult_integral in Hz as [Hz|Hk]; [done|].
      apply (f_equal Qcanon.this) in Hk. discriminate Hk.
    - intros ->. by rewrite !kwh_0. }
  rewrite <-raw_per_kwh_value. split_and!.
  - unfold Sm.to_kwh. rewrite !map_map. by apply map_ext.
  - unfold Plug.to_kwh. rewrite !map_map. by apply map_ext.
  - apply Hfix.
  - rewrite Hfix. intros H. apply (f_equal Qcanon.this) in H. discriminate H.
Qed.

(** C10.  The conversion keeps the number and the order of the rows, and in
    every row it changes the power column only: the date and the other
    fifteen meter columns (the date, for a plug frame) are the ones of the
    row at the same position of the input. *)
Theorem to_kwh_frame (sm : Sm.Frame) (pl : Plug.Frame) :
  length (Sm.to_kwh sm) = length sm
  ∧ Forall2 (fun r r' =>
      Sm.powerphase1 r' = Sm.powerphase1 r
      ∧ Sm.powerphase2 r' = Sm.powerphase2 r
      ∧ Sm.powerphase3 r' = Sm.powerphase3 r
      ∧ Sm.voltagephase1 r' = Sm.voltagephase1 r
      ∧ Sm.voltagephase2 r' = Sm.voltagephase2 r
      ∧ Sm.voltagephase3 r' = Sm.voltagephase3 r
      ∧ Sm.currentphase1 r' = Sm.currentphase1 r
      ∧ Sm.currentphase2 r' = Sm.currentphase2 r
      ∧ Sm.currentphase3 r' = Sm.currentphase3 r
      ∧ Sm.pfphase1 r' = Sm.pfphase1 r
      ∧ Sm.pfphase2 r' = Sm.pfphase2 r
      ∧ Sm.pfphase3 r' = Sm.pfphase3 r
      ∧ Sm.freq r' = Sm.freq r
      ∧ Sm.extra_col1 r' = Sm.extra_col1 r
      ∧ Sm.extra_col2 r' = Sm.extra_col2 r
      ∧ Sm.date r' = Sm.date r
      ∧ Sm.powerallphases r' = kwh (Sm.powerallphases r))
    sm (Sm.to_kwh sm)
  ∧ length (Plug.to_kwh pl) = length pl
  ∧ Forall2 (fun r r' =>
      Plug.date r' = Plug.date r ∧ Plug.power r' = kwh (Plug.power r))
    pl (Plug.to_kwh pl).
Proof.
  split_and!.
  - apply length_map.
  - induction sm; constructor; [by repeat split | done].
  - apply length_map.
  - induction pl; constructor; [by repeat split | done].
Qed.

(** ** Sums *)

Lemma total_nil : total [] = 0%Qc.
Proof. done. Qed.

Lemma total_cons (x : Qc) (l : list Qc) : total (x :: l) = (x + total l)%Qc.
Proof. done. Qed.

Lemma total_app (l1 l2 : list Qc) :
  total (l1 ++ l2) = (total l1 + total l2)%Qc.
Proof.
  induction l1 as [|x l1 IH]; [simpl; rewrite total_nil; ring|].
  rewrite <-app_comm_cons, !total_cons, IH. ring.
Qed.

Lemma total_Permutation (l1 l2 : list Qc) : l1 ≡ₚ l2 → total l1 = total l2.
Proof.
  induction 1 as [|x l1 l2 _ IH|x y l|l1 l2 l3 _ IH1 _ IH2];
    rewrite ?total_cons; [done | by rewrite IH | ring | congruence].
Qed.

#[global] Instance total_Proper : Proper ((≡ₚ) ==> (=)) total.
Proof. intros l1 l2. apply total_Permutation. Qed.

(** ** One pass of group sums *)

Section GroupByFacts.

Context {K : Type} `{EqDecision K}.

(** The sum of the accumulators of the groups that satisfy [P]. *)
Let sum_where (P : K -> Prop) `{forall k, Decision (P k)}
    (acc : list (K * Qc)) : Qc :=
  total (map snd (filter (fun e => P e.1) acc)).

Lemma add_to_sum_where (P : K -> Prop) `{forall k, Decision (P k)}
    (k : K) (v : Qc) (acc : list (K * Qc)) :
  sum_where P (add_to k v acc)
  = (sum_where P acc + if decide (P k) then v else 0)%Qc.
Proof.
  unfold sum_where. induction acc as [|[k' s] acc IH]; simpl.
  - rewrite filter_cons. simpl. destruct (decide (P k)); simpl;
      rewrite ?total_cons, ?total_nil; ring.
  - destruct (decide (k = k')) as [->|Hne].
    + rewrite !filter_cons. simpl. destruct (decide (P k')); simpl;
        rewrite ?total_cons; ring.
    + rewrite !filter_cons. simpl. destruct (decide (P k')); simpl;
        rewrite ?total_cons, IH; ring.
Qed.

Lemma add_to_keys (k : K) (v : Qc) (acc : list (K * Qc)) (k' : K) :
  k' ∈ map fst (add_to k v acc) ↔ k' = k ∨ k' ∈ map fst acc.
Proof.
  induction acc as [|[k0 s] acc IH]; simpl.
  - rewrite list_elem_of_singleton, elem_of_nil. tauto.
  - destruct (decide (k = k0)) as [->|Hne]; simpl;
      rewrite !elem_of_cons, ?IH; tauto.
Qed.

Lemma add_to_NoDup (k : K) (v : Qc) (acc : list (K * Qc)) :
  NoDup (map fst acc) → NoDup (map fst (add_to k v acc)).
Proof.
  induction acc as [|[k0 s] acc IH]; simpl.
  - intros _. apply NoDup_singleton.
  - rewrite NoDup_cons. intros [Hk0 Hacc].
    destruct (decide (k = k0)) as [->|Hne]; simpl; rewrite NoDup_cons.
    + done.
    + split; [|by apply IH]. rewrite add_to_keys. intros [?|?]; congruence.
Qed.

Section Rows.

Context {A : Type} (key : A -> K) (val : A -> Qc).

Let step (acc : list (K * Qc)) (r : A) : list (K * Qc) :=
  add_to (key r) (val r) acc.

Lemma fold_sum_where (P : K -> Prop) `{forall k, Decision (P k)}
    (rows : list A) (acc : list (K * Qc)) :
  sum_where P (fold_left step rows acc)
  = (sum_where P acc
     + total (map val (filter (fun r => P (key r)) rows)))%Qc.
Proof.
  revert acc. induction rows as [|r rows IH]; intros acc; simpl.
  - rewrite total_nil. ring.
  - rewrite IH. unfold step. rewrite add_to_sum_where, filter_cons.
    destruct (decide (P (key r))); simpl; rewrite ?total_cons; ring.
Qed.

Lemma fold_keys (rows : list A) (acc : list (K * Qc)) (k : K) :
  k ∈ map fst (fold_left step rows acc)
  ↔ k ∈ map fst acc ∨ rows_of key k rows ≠ [].
Proof.
  revert acc. induction rows as [|r rows IH]; intros acc; simpl.
  - unfold rows_of. simpl. tauto.
  - rewrite IH. unfold step. rewrite add_to_keys.
    unfold rows_of. rewrite filter_cons.
    destruct (decide (key r = k)) as [<-|Hne].
    + split; [intros [[|]|]; auto | tauto].
    + split; [intros [[->|]|]; [done | auto | auto] | tauto].
Qed.

Lemma fold_NoDup (rows : list A) (acc : list (K * Qc)) :
  NoDup (map fst acc) → NoDup (map fst (fold_left step rows acc)).
Proof.
  revert acc. induction rows as [|r rows IH]; intros acc Hacc; simpl;
    [done|]. by apply IH, add_to_NoDup.
Qed.

End Rows.

End GroupByFacts.

(** ** [groupby(...).agg('sum')] *)

Lemma filter_none {A} (P : A -> Prop) `{forall x, Decision (P x)}
    (l : list A) :
  Forall (fun x => ¬ P x) l → filter P l = [].
Proof.
  induction 1 as [|x l Hx _ IH]; [done|]. by rewrite filter_cons_False.
Qed.

Lemma NoDup_keys_filter {K} `{EqDecision K} (acc : list (K * Qc)) (k : K)
    (s : Qc) :
  NoDup (map fst acc) → (k, s) ∈ acc →
  filter (fun e => e.1 = k) acc = [(k, s)].
Proof.
  induction acc as [|[k' s'] acc IH]; simpl; [by intros _ ?%elem_of_nil|].
  rewrite NoDup_cons, elem_of_cons, filter_cons. simpl.
  intros [Hk' Hacc] [[= <- <-]|Hin].
  - rewrite decide_True by done. f_equal.
    apply filter_none, Forall_forall. intros [k0 s0] Hin0 ?.
    simplify_eq/=. apply Hk'. apply list_elem_of_fmap. by exists (k, s0).
  - rewrite decide_False; [by apply IH|].
    intros ->. apply Hk'. apply list_elem_of_fmap. by exists (k, s).
Qed.

Section GroupBySum.

Context {K : Type} `{EqDecision K}.
Context (le : relation K) `{forall x y, Decision (le x y)}.
Context {A : Type} (key : A -> K) (val : A -> Qc).

Lemma groupby_sum_Permutation (rows : list A) :
  groupby_sum le key val rows ≡ₚ group_sums key val rows.
Proof. apply merge_sort_Permutation. Qed.

(** One output row per group. *)
Lemma groupby_sum_NoDup (rows : list A) :
  NoDup (map fst (groupby_sum le key val rows)).
Proof.
  rewrite groupby_sum_Permutation. apply fold_NoDup. constructor.
Qed.

Lemma groupby_sum_keys (rows : list A) (k : K) :
  k ∈ map fst (groupby_sum le key val rows) ↔ rows_of key k rows ≠ [].
Proof.
  rewrite groupby_sum_Permutation. unfold group_sums. rewrite fold_keys.
  simpl. rewrite elem_of_nil. tauto.
Qed.

(** The sums of the groups selected by [P] add up to the sum over the rows
    of these groups. *)
Lemma groupby_sum_where (P : K -> Prop) `{forall k, Decision (P k)}
    (rows : list A) :
  total (map snd (filter (fun e => P e.1) (groupby_sum le key val rows)))
  = total (map val (filter (fun r => P (key r)) rows)).
Proof.
  rewrite groupby_sum_Permutation. unfold group_sums.
  rewrite fold_sum_where. simpl. rewrite total_nil. ring.
Qed.

Lemma groupby_sum_elem (rows : list A) (k : K) (s : Qc) :
  (k, s) ∈ groupby_sum le key val rows
  ↔ rows_of key k rows ≠ [] ∧ s = total (map val (rows_of key k rows)).
Proof.
  assert (∀ s', (k, s') ∈ groupby_sum le key val rows →
                s' = total (map val (rows_of key k rows))) as Hsum.
  { intros s' Hin.
    pose proof (groupby_sum_where (fun k' => k' = k) rows) as Hw.
    pose proof (NoDup_keys_filter _ k s' (groupby_sum_NoDup rows) Hin) as Hf.
    transitivity (total (map snd [(k, s')])).
    - simpl. rewrite total_cons, total_nil. ring.
    - rewrite <-Hf. exact Hw. }
  split.
  - intros Hin. split; [|by apply Hsum].
    apply groupby_sum_keys, list_elem_of_fmap. by exists (k, s).
  - intros [Hrows ->]. apply groupby_sum_keys in Hrows.
    apply list_elem_of_fmap in Hrows as ([k' s'] & -> & Hin). simpl in *.
    by rewrite <-(Hsum _ Hin).
Qed.

End GroupBySum.

Lemma filter_all {A} (P : A -> Prop) `{forall x, Decision (P x)} (l : list A) :
  Forall P l → filter P l = l.
Proof.
  induction 1 as [|x l Hx _ IH]; [done|]. by rewrite filter_cons_True, IH.
Qed.

(** No row of the input is left out of the sums. *)
Lemma groupby_sum_total {K} `{EqDecision K} (le : relation K)
    `{forall x y, Decision (le x y)} {A} (key : A -> K) (val : A -> Qc)
    (rows : list A) :
  total (map snd (groupby_sum le key val rows)) = total (map val rows).
Proof.
  pose proof (groupby_sum_where le key val (fun _ => True) rows) as Hw.
  rewrite !filter_all in Hw; [done | by apply Forall_forall..].
Qed.

(** C4.  The aggregation has one row per group that occurs in its input,
    and its total is the sum of the power cells of exactly the rows of that
    group, for the appliance totals (groups by household and appliance) and
    for the household totals (groups by household).  The totals add up to
    the sum over all rows: no row is left out. *)
Theorem groupby_totals (combined_plugs : list (Housed Appliance))
    (combined_sm : list (Housed Sm.Row)) :
  (∀ h a s,
     (h, a, s) ∈ total_appliance_power combined_plugs
     ↔ rows_of plug_key (h, a) combined_plugs ≠ []
       ∧ s = total (map plug_power (rows_of plug_key (h, a) combined_plugs)))
  ∧ NoDup (map fst (total_appliance_power combined_plugs))
  ∧ total (map snd (total_appliance_power combined_plugs))
    = total (map plug_power combined_plugs)
  ∧ (∀ h s,
       (h, s) ∈ total_household_power combined_sm
       ↔ rows_of household h combined_sm ≠ []
         ∧ s = total (map sm_power (rows_of household h combined_sm)))
  ∧ NoDup (map fst (total_household_power combined_sm))
  ∧ total (map snd (total_household_power combined_sm))
    = total (map sm_power combined_sm).
Proof.
  unfold total_appliance_power, total_household_power. split_and!.
  - intros h a s. apply groupby_sum_elem.
  - apply groupby_sum_NoDup.
  - apply groupby_sum_total.
  - intros h s. apply groupby_sum_elem.
  - apply groupby_sum_NoDup.
  - apply groupby_sum_total.
Qed.

(** The sample: the two rows of appliance 05 of household 4 are summed,
    and every row is counted once. *)
Example groupby_totals_sample :
  total_appliance_power SampleTotals.plugs
  = [("Household 4", "01", Sample.q 1); ("Household 4", "05", Sample.q 5);
     ("Household 5", "01", Sample.q 0); ("Household 5", "02", Sample.q 1)]
  ∧ total_household_power SampleTotals.meters
    = [("Household 4", Sample.q 20); ("Household 5", Sample.q 0)].
Proof. split; vm_compute; reflexivity. Qed.

(** ** The join and the percentage column *)

Lemma hundred_nonzero : Qc_of_Z 100 ≠ 0%Qc.
Proof. intros H. apply (f_equal Qcanon.this) in H. discriminate H. Qed.

Lemma hundred_pos : (0 < Qc_of_Z 100)%Qc.
Proof. reflexivity. Qed.

Lemma fmul_inf_hundred (q : Qc) :
  fmul (inf_of_sign q) (Fin (Qc_of_Z 100)) = inf_of_sign q.
Proof.
  pose proof hundred_nonzero. pose proof hundred_pos.
  unfold inf_of_sign. destruct (decide (0 < q)%Qc); cbn [fmul fneg];
    repeat case_decide; done.
Qed.

(** The value of the percentage cell, by cases on the meter total. *)
Lemma percentage_cases (r : Total.Row) :
  percentage r =
  if decide (Total.powerallphases r = 0%Qc)
  then (if decide (Total.power r = 0%Qc) then NaN
        else inf_of_sign (Total.power r))
  else Fin (Total.power r / Total.powerallphases r * Qc_of_Z 100)%Qc.
Proof.
  unfold percentage. simpl.
  destruct (decide (Total.powerallphases r = 0%Qc)); [|done].
  destruct (decide (Total.power r = 0%Qc)); [done|]. apply fmul_inf_hundred.
Qed.

Lemma inf_of_sign_not_finite (q : Qc) : is_finite (inf_of_sign q) = false.
Proof. unfold inf_of_sign. by destruct (decide _). Qed.

Lemma fsum_Fin (qs : list Qc) : fsum (map Fin qs) = Fin (total qs).
Proof.
  induction qs as [|q qs IH]; [done|].
  simpl. unfold fsum in *. simpl. by rewrite IH.
Qed.


Lemma merge_elem (left : list (string * string * Qc))
    (right : list (string * Qc)) (r : Total.Row) :
  r ∈ merge_on_household left right
  ↔ (Total.household r, Total.appliance r, Total.power r) ∈ left
    ∧ (Total.household r, Total.powerallphases r) ∈ right.
Proof.
  unfold merge_on_household. rewrite list_elem_of_bind. split.
  - intros ([[h a] p] & ([h' T] & ->%list_elem_of_singleton
                         & [Hh Hr]%list_elem_of_filter)%list_elem_of_bind & Hl).
    simpl in *. by subst.
  - intros [Hl Hr]. exists (Total.household r, Total.appliance r, Total.power r).
    split; [|done]. apply list_elem_of_bind.
    exists (Total.household r, Total.powerallphases r). simpl. split.
    + destruct r. apply list_elem_of_singleton. done.
    + by apply list_elem_of_filter.
Qed.





(** C9.  Every row of [total_power] holds an appliance total and the meter
    total of its household, and its percentage cell is the plain division
    of the first by the second, times 100, whatever the meter total: on a
    meter total of zero the cell is not-a-number or an infinity, and it is a
    finite number exactly when the meter total is not zero.  A meter total
    of zero is reachable: household 5 of the sample has one. *)
Theorem percentage_unguarded (combined_plugs : list (Housed Appliance))
    (combined_sm : list (Housed Sm.Row)) (r : Total.Row) :
  r ∈ total_power combined_plugs combined_sm →
  let T :=
    total (map sm_power (rows_of household (Total.household r) combined_sm)) in
  Total.powerallphases r = T
  ∧ Total.power r
    = total (map plug_power
               (rows_of plug_key (Total.household r, Total.appliance r)
                        combined_plugs))
  ∧ percentage r =
    (if decide (T = 0%Qc)
     then (if decide (Total.power r = 0%Qc) then NaN
           else inf_of_sign (Total.power r))
     else Fin (Total.power r / T * Qc_of_Z 100)%Qc)
  ∧ (is_finite (percentage r) = true ↔ T ≠ 0%Qc)
  ∧ ∃ plugs0 sm0 r1 r2,
      r1 ∈ total_power plugs0 sm0 ∧ r2 ∈ total_power plugs0 sm0
      ∧ Total.powerallphases r1 = 0%Qc ∧ Total.powerallphases r2 = 0%Qc
      ∧ percentage r1 = NaN ∧ percentage r2 = PInf.
Proof.
  intros [Hl Hr]%merge_elem T.
  apply groupby_sum_elem in Hl as [_ Hp]. apply groupby_sum_elem in Hr as [_ HT].
  fold T in HT. split_and!; [done | done | | |].
  - rewrite percentage_cases. by rewrite HT.
  - rewrite percentage_cases, HT.
    destruct (decide (T = 0%Qc)) as [HT0|HT0]; [|done].
    destruct (decide (Total.power r = 0%Qc)); simpl;
      rewrite ?inf_of_sign_not_finite; split; done.
  - exists SampleTotals.plugs, SampleTotals.meters,
      (Total.mkRow "Household 5" "01" (Sample.q 0) (Sample.q 0)),
      (Total.mkRow "Household 5" "02" (Sample.q 1) (Sample.q 0)).
    split_and!; try reflexivity.
    + apply merge_elem. split; vm_compute; repeat constructor.
    + apply merge_elem. split; vm_compute; repeat constructor.
Qed.

(** Household 5 of the sample: a meter total of zero, an appliance total of
    one, and a percentage of plus infinity. *)
Lemma percentage_unguarded_witness :
  Total.mkRow "Household 5" "02" (Sample.q 1) (Sample.q 0)
  ∈ total_power SampleTotals.plugs SampleTotals.meters
  ∧ total (map sm_power (rows_of household "Household 5" SampleTotals.meters))
    = 0%Qc
  ∧ percentage (Total.mkRow "Household 5" "02" (Sample.q 1) (Sample.q 0)) = PInf
  ∧ is_finite
      (percentage (Total.mkRow "Household 5" "02" (Sample.q 1) (Sample.q 0)))
    ≠ true.
Proof.
  assert (Total.mkRow "Household 5" "02" (Sample.q 1) (Sample.q 0)
          ∈ total_power SampleTotals.plugs SampleTotals.meters) as Hin.
  { apply merge_elem. split; vm_compute; repeat constructor. }
  destruct (percentage_unguarded SampleTotals.plugs SampleTotals.meters _ Hin)
    as (HT & _ & _ & Hfin & _).
  split_and!; [done | symmetry; exact HT | reflexivity |].
  intros Ht. apply Hfin in Ht. apply Ht. symmetry. exact HT.
Defined.

(** ** The order of the aggregated rows, and the three households *)

#[global] Instance pair_le_total : Total pair_le.
Proof.
  intros [h1 a1] [h2 a2]. unfold pair_le. simpl.
  destruct (decide (h1 = h2)) as [->|Hne].
  - destruct (base.total String.le a1 a2); auto.
  - destruct (base.total String.le h1 h2); auto.
Qed.

(** The rows of both aggregations come sorted by their key. *)
Lemma total_power_inputs_sorted (combined_plugs : list (Housed Appliance))
    (combined_sm : list (Housed Sm.Row)) :
  Sorted (fun x y => pair_le x.1 y.1) (total_appliance_power combined_plugs)
  ∧ Sorted (fun x y => String.le x.1 y.1) (total_household_power combined_sm).
Proof.
  split; apply Sorted_merge_sort; intros x y; apply base.total; apply _.
Qed.

Lemma rows_of_assign_household {A} (h h' : string) (df : list A) :
  rows_of household h (assign_household h' df)
  = if decide (h' = h) then assign_household h' df else [].
Proof.
  unfold rows_of, assign_household. destruct (decide (h' = h)) as [->|Hne].
  - apply filter_all, Forall_forall. by intros r (? & -> & _)%list_elem_of_fmap.
  - apply filter_none, Forall_forall.
    by intros r (? & -> & _)%list_elem_of_fmap.
Qed.

(** From the three meter frames to the aggregation: the total of household
    4 is the sum of the power column of its frame. *)
Lemma household_4_total (sm_data_04 sm_data_05 sm_data_06 : Sm.Frame)
    (combined : list (Housed Sm.Row)) :
  combined_sm_data sm_data_04 sm_data_05 sm_data_06 = Ok combined →
  sm_data_04 ≠ [] →
  ("Household 4", total (map Sm.powerallphases sm_data_04))
  ∈ total_household_power combined.
Proof.
  intros [= <-] Hne. apply groupby_sum_elem.
  assert (rows_of household "Household 4"
            (assign_household "Household 4" sm_data_04
             ++ assign_household "Household 5" sm_data_05
             ++ assign_household "Household 6" sm_data_06 ++ [])
          = assign_household "Household 4" sm_data_04) as ->.
  { rewrite app_nil_r. unfold rows_of at 1. rewrite !list.filter_app.
    fold (rows_of household "Household 4"
            (assign_household "Household 4" sm_data_04)).
    fold (rows_of household "Household 4"
            (assign_household "Household 5" sm_data_05)).
    fold (rows_of household "Household 4"
            (assign_household "Household 6" sm_data_06)).
    rewrite !rows_of_assign_household. simpl. by rewrite !app_nil_r. }
  split.
  - by destruct sm_data_04.
  - unfold assign_household. rewrite map_map. done.
Qed.

(** * Further properties *)

(** ** File names *)

Lemma string_length_app (s t : string) :
  String.length (s +:+ t) = (String.length s + String.length t)%nat.
Proof. induction s as [|a s IH]; simpl; [done | by rewrite IH]. Qed.

Lemma substring_all (s : string) (n : nat) :
  (String.length s ≤ n)%nat → String.substring 0 n s = s.
Proof.
  revert n. induction s as [|a s IH]; intros [|n] Hn; simpl in *;
    [done | done | lia | rewrite IH; [done | lia]].
Qed.

Lemma substring_0_app (s t : string) :
  String.substring 0 (String.length s) (s +:+ t) = s.
Proof. induction s as [|a s IH]; simpl; [by destruct t | by rewrite IH]. Qed.

Lemma substring_skip_app (s t : string) (m : nat) :
  String.substring (String.length s) m (s +:+ t) = String.substring 0 m t.
Proof. induction s as [|a s IH]; simpl; [done | apply IH]. Qed.

Lemma substring_split (s : string) (n m : nat) :
  (String.substring 0 n s +:+ String.substring n m s)%string
  = String.substring 0 (n + m) s.
Proof.
  revert n. induction s as [|a s IH]; intros [|n]; simpl.
  - by destruct m.
  - by destruct m.
  - done.
  - rewrite <-IH. reflexivity.
Qed.

Lemma substring_length_le (s : string) (n m : nat) :
  (String.length (String.substring n m s) ≤ m)%nat.
Proof.
  revert n m. induction s as [|a s IH]; intros [|n] [|m]; simpl; try lia.
  - specialize (IH 0%nat m). lia.
  - apply (IH n 0%nat).
  - apply (IH n (S m)).
Qed.

Lemma substring_length_short (s : string) (m : nat) :
  (String.length s < m)%nat →
  String.length (String.substring 0 m s) = String.length s.
Proof. intros Hm. rewrite substring_all; [done | lia]. Qed.

(** A name is taken by the loop exactly when it is a stem followed by
    [.csv], and the stem is what [file[:-4]] hands to [pd.to_datetime]. *)
Lemma endswith_csv_iff (file : string) :
  endswith file ".csv" = true ↔ file = (drop_last4 file +:+ ".csv")%string.
Proof.
  unfold endswith, drop_last4. rewrite String.eqb_eq. simpl String.length.
  split.
  - intros Hsuf.
    assert (4 ≤ String.length file)%nat as Hlen.
    { destruct (decide (4 ≤ String.length file)%nat) as [|Hshort]; [done|].
      replace (String.length file - 4)%nat with 0%nat in Hsuf by lia.
      apply (f_equal String.length) in Hsuf.
      rewrite substring_length_short in Hsuf by lia. simpl in Hsuf. lia. }
    rewrite <-Hsuf. rewrite substring_split.
    symmetry. apply substring_all. lia.
  - intros Hfile. rewrite Hfile at 2.
    set (stem := String.substring 0 (String.length file - 4) file) in *.
    assert (String.length file - 4 = String.length stem)%nat as ->.
    { apply (f_equal String.length) in Hfile.
      rewrite string_length_app in Hfile. simpl in Hfile. lia. }
    by rewrite substring_skip_app.
Qed.

Lemma csv_name_stem (stem : string) :
  endswith (stem +:+ ".csv") ".csv" = true
  ∧ drop_last4 (stem +:+ ".csv") = stem.
Proof.
  assert (drop_last4 (stem +:+ ".csv") = stem) as Hstem.
  { unfold drop_last4. rewrite string_length_app. simpl.
    replace (String.length stem + 4 - 4)%nat with (String.length stem) by lia.
    apply substring_0_app. }
  split; [|done]. apply endswith_csv_iff. by rewrite Hstem.
Qed.

(** ** More on the loader *)

Lemma sorted_unique (names names' : list string) :
  names ≡ₚ names' → sorted names = sorted names'.
Proof.
  intros Hperm. apply (StronglySorted_unique String.le).
  - apply sorted_StronglySorted.
  - apply sorted_StronglySorted.
  - by rewrite !sorted_Permutation.
Qed.

Lemma csv_files_unique (names names' : list string) :
  filter is_csv names ≡ₚ filter is_csv names' →
  csv_files names = csv_files names'.
Proof.
  intros Hperm. apply (StronglySorted_unique String.le).
  - apply csv_files_sorted.
  - apply csv_files_sorted.
  - by rewrite !csv_files_Permutation.
Qed.

Lemma mapM_ext_in {A B} (f g : A -> result B) (l : list A) :
  (∀ x, x ∈ l → f x = g x) → mapM f l = mapM g l.
Proof.
  induction l as [|x l IH]; intros Hfg; simpl; [done|].
  rewrite (Hfg x) by apply list_elem_of_here.
  rewrite IH; [done|]. intros y Hy. by apply Hfg, list_elem_of_further.
Qed.

Lemma elem_of_concat {A} (x : A) (ls : list (list A)) :
  x ∈ concat ls ↔ ∃ l, x ∈ l ∧ l ∈ ls.
Proof.
  induction ls as [|l ls IH]; simpl.
  - split; [by intros ?%elem_of_nil | by intros (? & _ & ?%elem_of_nil)].
  - rewrite elem_of_app, IH. split.
    + intros [?|(l' & ? & ?)]; [exists l | exists l'];
        rewrite elem_of_cons; auto.
    + intros (l' & ? & [->|?]%elem_of_cons); eauto.
Qed.

Lemma filter_earlier_twice (c1 c2 : Z) (l : list Raw.Row) :
  c1 ≤ c2 →
  filter (fun r => earlier (Raw.date r) (Stamp c1))
         (filter (fun r => earlier (Raw.date r) (Stamp c2)) l)
  = filter (fun r => earlier (Raw.date r) (Stamp c1)) l.
Proof.
  intros Hle. induction l as [|r l IH]; [done|].
  rewrite !(filter_cons _ r).
  destruct (decide (earlier (Raw.date r) (Stamp c2))) as [H2|H2],
           (decide (earlier (Raw.date r) (Stamp c1))) as [H1|H1].
  - rewrite filter_cons_True by done. by rewrite IH.
  - rewrite filter_cons_False by done. done.
  - destruct H2. destruct (Raw.date r); simpl in *; [lia | done].
  - done.
Qed.

Section LoaderMore.

Variable to_datetime : string -> result Timestamp.
Variable to_timestamp : string -> result Timestamp.
Variable fs : FileSystem.

(** X1.  The first file, in sorted order, on which [pd.read_csv] or
    [pd.to_datetime] raises decides the exception of the load; the files
    before it load, also one whose name gives the missing timestamp, and the
    files after it play no part. *)
Theorem load_data_first_failure time_point folder_path names before_it file
    after_it e :
  listdir fs folder_path = Ok names →
  csv_files names = before_it ++ file :: after_it →
  Forall (fun f => is_Ok (read_csv fs (path_join folder_path f))
                   ∧ is_Ok (to_datetime (drop_last4 f))) before_it →
  (read_csv fs (path_join folder_path file) = Raise e
   ∨ is_Ok (read_csv fs (path_join folder_path file))
     ∧ to_datetime (drop_last4 file) = Raise e) →
  load_data to_datetime to_timestamp fs time_point folder_path = Raise e.
Proof.
  intros Hnames Hsplit Hbefore Hfile.
  rewrite (load_data_unfold _ _ _ _ _ _ Hnames).
  assert (mapM (load_file to_datetime fs folder_path) (csv_files names)
          = Raise e) as ->; [|done].
  apply mapM_Raise. exists before_it, file, after_it. split_and!; [done| |].
  - eapply Forall_impl; [exact Hbefore|]. intros f [Hr Hd]. simpl in *.
    unfold load_file.
    destruct (read_csv fs (path_join folder_path f)); [simpl|done].
    by destruct (to_datetime (drop_last4 f)).
  - by apply load_file_Raise.
Qed.

(** When every file loads, the frames are there and are not an empty
    list. *)
Lemma load_files_all_Ok folder_path names :
  csv_files names ≠ [] →
  Forall (fun f => is_Ok (read_csv fs (path_join folder_path f))
                   ∧ is_Ok (to_datetime (drop_last4 f))) (csv_files names) →
  ∃ frames,
    mapM (load_file to_datetime fs folder_path) (csv_files names) = Ok frames
    ∧ frames ≠ [].
Proof.
  intros Hne Hall.
  destruct (mapM _ (csv_files names)) as [frames|e'] eqn:Hframes.
  - exists frames. split; [done|].
    apply mapM_Ok, Forall2_length in Hframes. intros ->.
    by apply Hne, length_zero_iff_nil.
  - apply mapM_Raise_1 in Hframes as (f & Hin & Hf).
    eapply Forall_forall in Hall as [Hr Hd]; [|exact Hin].
    apply load_file_Raise in Hf as [Hf|[_ Hf]].
    + by rewrite Hf in Hr.
    + by rewrite Hf in Hd.
Qed.

(** X2.  The cutoff string is read last, by the comparison.  When every file
    loads, a cutoff that [pd.Timestamp] rejects makes the comparison raise,
    and the frames are lost; a cutoff that it reads as the missing timestamp
    raises nothing, and the frame returned has no row. *)
Theorem load_data_bad_cutoff time_point folder_path names :
  listdir fs folder_path = Ok names →
  csv_files names ≠ [] →
  Forall (fun f => is_Ok (read_csv fs (path_join folder_path f))
                   ∧ is_Ok (to_datetime (drop_last4 f))) (csv_files names) →
  (is_Ok (to_timestamp time_point) = false →
   load_data to_datetime to_timestamp fs time_point folder_path
   = Raise (InvalidComparison time_point))
  ∧ (to_timestamp time_point = Ok NaT →
     ∃ df, load_data to_datetime to_timestamp fs time_point folder_path = Ok df
           ∧ Raw.rows df = []).
Proof.
  intros Hnames Hne Hall.
  destruct (load_files_all_Ok _ _ Hne Hall) as (frames & Hframes & Hframes_ne).
  split.
  - intros Hc. rewrite (load_data_unfold _ _ _ _ _ _ Hnames), Hframes. simpl.
    unfold Raw.pd_concat, before. destruct frames; [done|]. simpl.
    by destruct (to_timestamp time_point).
  - intros Hc. eexists. split.
    + apply load_data_Ok_frames. by exists names, frames, NaT.
    + simpl. apply filter_none, Forall_forall. intros r _.
      apply earlier_NaT_r.
Qed.

(** X4.  Lowering the cutoff keeps the columns and the rows of the wider load
    that are before the new cutoff, in the same order. *)
Theorem load_data_earlier_cutoff time_point1 time_point2 folder_path c1 c2 df :
  to_timestamp time_point1 = Ok (Stamp c1) →
  to_timestamp time_point2 = Ok (Stamp c2) →
  c1 ≤ c2 →
  load_data to_datetime to_timestamp fs time_point2 folder_path = Ok df →
  load_data to_datetime to_timestamp fs time_point1 folder_path
  = Ok (Raw.mkFrame (Raw.labels df)
          (filter (fun r => earlier (Raw.date r) (Stamp c1)) (Raw.rows df))).
Proof.
  intros Hc1 Hc2 Hle
    (names & frames & c & Hnames & Hframes & Hne & Hc & ->)%load_data_Ok_frames.
  assert (c = Stamp c2) as -> by congruence.
  apply load_data_Ok_frames. exists names, frames, (Stamp c1).
  split_and!; try done. simpl. by rewrite filter_earlier_twice.
Qed.

(** X5.  When no file is dated before the cutoff (every file is dated at or
    after it, or has no date) the load succeeds with a frame that has the
    columns of the files and no row; only a folder without [.csv] files
    raises. *)
Theorem load_data_all_late time_point folder_path names tables dates c :
  listdir fs folder_path = Ok names →
  csv_files names ≠ [] →
  Forall2 (fun f rows => read_csv fs (path_join folder_path f) = Ok rows)
          (csv_files names) tables →
  Forall2 (fun f d => to_datetime (drop_last4 f) = Ok d) (csv_files names)
          dates →
  to_timestamp time_point = Ok c →
  Forall (fun d => ¬ earlier d c) dates →
  load_data to_datetime to_timestamp fs time_point folder_path
  = Ok (Raw.mkFrame
          (Raw.union_labels
             (map Raw.labels (zip_with Raw.set_date tables dates)))
          []).
Proof.
  intros Hnames Hne Htables Hdates Hc Hlate.
  apply load_data_Ok_frames.
  exists names, (zip_with Raw.set_date tables dates), c.
  split_and!; try done.
  - by apply load_files_Ok.
  - intros Hnil. apply Hne.
    apply Forall2_length in Htables. apply Forall2_length in Hdates.
    apply (f_equal length) in Hnil. rewrite length_zip_with in Hnil.
    simpl in Hnil. apply length_zero_iff_nil. lia.
  - f_equal. symmetry. apply filter_none, Forall_forall.
    intros r (rs & Hr & (frame & -> & Hframe)%list_elem_of_fmap)%elem_of_concat.
    clear Htables Hdates Hne. revert tables Hframe.
    induction Hlate as [|d dates Hd _ IH]; intros [|t tables] Hframe;
      simpl in Hframe; try by apply elem_of_nil in Hframe.
    apply elem_of_cons in Hframe as [->|Hframe]; [|by eapply IH].
    simpl in Hr. by apply list_elem_of_fmap in Hr as (l & -> & _).
Qed.

(** X6.  Every row of the frame returned comes from one [.csv] file of the
    folder: its cells are a line of that file, unchanged, and its date is
    the timestamp that [pd.to_datetime] gave for the file name without the
    extension, never the missing one. *)
Theorem load_data_provenance time_point folder_path df r :
  load_data to_datetime to_timestamp fs time_point folder_path = Ok df →
  r ∈ Raw.rows df →
  ∃ names stem rows ns,
    listdir fs folder_path = Ok names
    ∧ (stem +:+ ".csv")%string ∈ names
    ∧ read_csv fs (path_join folder_path (stem +:+ ".csv")) = Ok rows
    ∧ Raw.cells r ∈ rows
    ∧ to_datetime stem = Ok (Raw.date r)
    ∧ Raw.date r = Stamp ns.
Proof.
  intros (names & frames & c & Hnames & Hframes & _ & _ & ->)%load_data_Ok_frames
    [Hearly (rs & Hr & (frame & -> & Hframe)%list_elem_of_fmap)%elem_of_concat]
      %list_elem_of_filter.
  apply mapM_Ok in Hframes.
  apply list_elem_of_lookup in Hframe as [i Hi].
  destruct (Forall2_lookup_r _ _ _ _ _ Hframes Hi) as (file & Hfile & Hload).
  apply load_file_Ok in Hload as (rows & d & Hrows & Hd & ->).
  apply list_elem_of_lookup_2, elem_of_csv_files in Hfile as [Hin Hcsv].
  apply endswith_csv_iff in Hcsv.
  apply list_elem_of_fmap in Hr as (cs & -> & Hcs).
  apply earlier_inv in Hearly as (ns & _ & Hns & _).
  exists names, (drop_last4 file), rows, ns. rewrite <-Hcsv. by split_and!.
Qed.

End LoaderMore.

(** X3.  The frame returned does not depend on the order in which the folder is
    listed, nor on the names that do not end in [.csv]. *)
Theorem load_data_listing_invariant
    (to_datetime to_timestamp : string -> result Timestamp)
    (fs fs' : FileSystem) (time_point folder_path : string)
    (names names' : list string) :
  listdir fs folder_path = Ok names →
  listdir fs' folder_path = Ok names' →
  filter is_csv names ≡ₚ filter is_csv names' →
  (∀ file, file ∈ names →
           read_csv fs (path_join folder_path file)
           = read_csv fs' (path_join folder_path file)) →
  load_data to_datetime to_timestamp fs time_point folder_path
  = load_data to_datetime to_timestamp fs' time_point folder_path.
Proof.
  intros Hnames Hnames' Hperm Hread.
  rewrite (load_data_unfold _ _ _ _ _ _ Hnames).
  rewrite (load_data_unfold _ _ _ _ _ _ Hnames').
  rewrite <-(csv_files_unique _ _ Hperm).
  rewrite (mapM_ext_in (load_file to_datetime fs folder_path)
             (load_file to_datetime fs' folder_path)); [done|].
  intros file [Hin _]%elem_of_csv_files. unfold load_file.
  by rewrite (Hread _ Hin).
Qed.

Lemma Sample_csv_files :
  csv_files Sample.names
  = ["2012-06-27.csv"; "2012-06-28.csv"; "2012-06-29.csv"].
Proof. vm_compute. reflexivity. Qed.

Lemma load_data_listing_invariant_witness :
  load_data Iso.to_datetime Iso.to_timestamp Sample.fs "2012-06-29"
    Sample.folder
  = load_data Iso.to_datetime Iso.to_timestamp
      (mkFS (fun _ => Ok ["notes.md"; "2012-06-28.csv"; "2012-06-27.csv";
                          "2012-06-29.csv"])
            (read_csv Sample.fs))
      "2012-06-29" Sample.folder.
Proof.
  apply (load_data_listing_invariant Iso.to_datetime Iso.to_timestamp Sample.fs
           _ "2012-06-29" Sample.folder Sample.names
           ["notes.md"; "2012-06-28.csv"; "2012-06-27.csv"; "2012-06-29.csv"]).
  - reflexivity.
  - reflexivity.
  - change (filter is_csv Sample.names)
      with ["2012-06-29.csv"; "2012-06-27.csv"; "2012-06-28.csv"].
    change (filter is_csv ["notes.md"; "2012-06-28.csv"; "2012-06-27.csv";
                           "2012-06-29.csv"])
      with ["2012-06-28.csv"; "2012-06-27.csv"; "2012-06-29.csv"].
    etrans; [apply perm_swap|]. etrans; [apply perm_skip, perm_swap|].
    apply perm_swap.
  - reflexivity.
Defined.

(** A folder with a file named [.csv] and one named [backup.csv]: the first
    loads without a date, the exception is the one of the second. *)
Lemma load_data_first_failure_witness :
  csv_files ["2012-06-27.csv"; "backup.csv"; ".csv"; "2012-06-28.csv"]
  = [".csv"; "2012-06-27.csv"; "2012-06-28.csv"] ++ "backup.csv" :: []
  ∧ Iso.to_datetime (drop_last4 ".csv") = Ok NaT
  ∧ Iso.to_datetime (drop_last4 "backup.csv") = Raise (DateParseError "backup")
  ∧ load_data Iso.to_datetime Iso.to_timestamp Sample.fs time_point "eco/bad"
    = Raise (DateParseError "backup").
Proof.
  assert (csv_files ["2012-06-27.csv"; "backup.csv"; ".csv"; "2012-06-28.csv"]
          = [".csv"; "2012-06-27.csv"; "2012-06-28.csv"] ++ "backup.csv" :: [])
    as Hcsv by (vm_compute; reflexivity).
  split; [exact Hcsv|]. split; [reflexivity|]. split; [reflexivity|].
  apply (load_data_first_failure Iso.to_datetime Iso.to_timestamp Sample.fs
           time_point "eco/bad"
           ["2012-06-27.csv"; "backup.csv"; ".csv"; "2012-06-28.csv"]
           [".csv"; "2012-06-27.csv"; "2012-06-28.csv"] "backup.csv" []).
  - reflexivity.
  - exact Hcsv.
  - repeat constructor.
  - right. split; [exact I | reflexivity].
Defined.

(** The cutoff ["next week"] is rejected and the comparison raises; the
    cutoff ["NaT"] is read as the missing timestamp and the frame comes back
    without a row. *)
Lemma load_data_bad_cutoff_witness :
  Iso.to_timestamp "next week" = Raise (DateParseError "next week")
  ∧ load_data Iso.to_datetime Iso.to_timestamp Sample.fs "next week"
      Sample.folder
    = Raise (InvalidComparison "next week")
  ∧ Iso.to_timestamp "NaT" = Ok NaT
  ∧ ∃ df, load_data Iso.to_datetime Iso.to_timestamp Sample.fs "NaT"
            Sample.folder = Ok df
          ∧ Raw.rows df = [].
Proof.
  assert (Forall (fun f => is_Ok (read_csv Sample.fs (path_join Sample.folder f))
                           ∧ is_Ok (Iso.to_datetime (drop_last4 f)))
                 (csv_files Sample.names)) as Hall
    by (rewrite Sample_csv_files; repeat constructor).
  assert (csv_files Sample.names ≠ []) as Hne
    by (rewrite Sample_csv_files; discriminate).
  split; [reflexivity|]. split.
  - apply (load_data_bad_cutoff Iso.to_datetime Iso.to_timestamp Sample.fs
             "next week" Sample.folder Sample.names); [reflexivity|done..].
  - split; [reflexivity|].
    apply (load_data_bad_cutoff Iso.to_datetime Iso.to_timestamp Sample.fs
             "NaT" Sample.folder Sample.names); [reflexivity|done..].
Defined.

Lemma load_data_earlier_cutoff_witness :
  Sample.ns28 ≤ Sample.ns29
  ∧ load_data Iso.to_datetime Iso.to_timestamp Sample.fs "2012-06-28"
      Sample.folder
    = Ok (Sample.frame [Sample.row 10 Sample.d27; Sample.row 11 Sample.d27]).
Proof.
  split; [by vm_compute|].
  apply (load_data_earlier_cutoff Iso.to_datetime Iso.to_timestamp Sample.fs
           "2012-06-28" "2012-06-29" Sample.folder Sample.ns28 Sample.ns29
           (Sample.frame [Sample.row 10 Sample.d27; Sample.row 11 Sample.d27;
                          Sample.row 20 Sample.d28])).
  - reflexivity.
  - reflexivity.
  - by vm_compute.
  - reflexivity.
Defined.

Lemma load_data_all_late_witness :
  Iso.to_timestamp "2012-06-27" = Ok Sample.d27
  ∧ load_data Iso.to_datetime Iso.to_timestamp Sample.fs "2012-06-27"
      Sample.folder
    = Ok (Sample.frame []).
Proof.
  split; [reflexivity|].
  apply (load_data_all_late Iso.to_datetime Iso.to_timestamp Sample.fs
           "2012-06-27" Sample.folder Sample.names
           [[Sample.line 10; Sample.line 11]; [Sample.line 20];
            [Sample.line 30; Sample.line 31]]
           [Sample.d27; Sample.d28; Sample.d29] Sample.d27).
  - reflexivity.
  - rewrite Sample_csv_files. discriminate.
  - rewrite Sample_csv_files. repeat constructor.
  - rewrite Sample_csv_files. repeat constructor.
  - reflexivity.
  - repeat constructor; by vm_compute.
Defined.

Lemma load_data_provenance_witness :
  ∃ names stem rows ns,
    listdir Sample.fs Sample.folder = Ok names
    ∧ (stem +:+ ".csv")%string ∈ names
    ∧ read_csv Sample.fs (path_join Sample.folder (stem +:+ ".csv")) = Ok rows
    ∧ Sample.line 20 ∈ rows
    ∧ Iso.to_datetime stem = Ok Sample.d28
    ∧ Sample.d28 = Stamp ns.
Proof.
  apply (load_data_provenance Iso.to_datetime Iso.to_timestamp Sample.fs
           "2012-06-29" Sample.folder
           (Sample.frame [Sample.row 10 Sample.d27; Sample.row 11 Sample.d27;
                          Sample.row 20 Sample.d28])
           (Sample.row 20 Sample.d28)).
  - reflexivity.
  - repeat constructor.
Defined.

(** ** The columns of the frame loaded *)

Lemma shape_length (a b : nat) : length (shape a b) = S (a + b).
Proof.
  unfold shape. rewrite length_app. simpl. rewrite !length_map, !length_seq.
  lia.
Qed.

Lemma elem_of_shape_Col (a b j : nat) : Col (S j) ∈ shape a b ↔ (j < a + b)%nat.
Proof.
  unfold shape. rewrite elem_of_app, elem_of_cons, !list_elem_of_fmap. split.
  - intros [(i & [= ->] & Hi%elem_of_seq)|[[=]|(i & [= ->] & Hi%elem_of_seq)]];
      lia.
  - intros Hj. destruct (decide (j < a)%nat).
    + left. exists j. split; [done|]. apply elem_of_seq. lia.
    + right. right. exists j. split; [done|]. apply elem_of_seq. lia.
Qed.

Lemma elem_of_shape_DateCol (a b : nat) : DateCol ∈ shape a b.
Proof. unfold shape. rewrite elem_of_app, elem_of_cons. auto. Qed.

Lemma list_difference_app (l1 l2 k : list label) :
  list_difference (l1 ++ l2) k = list_difference l1 k ++ list_difference l2 k.
Proof.
  induction l1 as [|x l1 IH]; [done|]. simpl.
  destruct (decide_rel elem_of x k); simpl; by rewrite IH.
Qed.

Lemma list_difference_nil_r (l : list label) : list_difference l [] = l.
Proof.
  induction l as [|x l IH]; [done|]. simpl.
  destruct (decide_rel elem_of x []) as [Hx|_]; [by apply elem_of_nil in Hx|].
  by rewrite IH.
Qed.

(** The columns that a file of [m] further columns adds to a frame. *)
Lemma list_difference_shape (a b m : nat) :
  list_difference (map (fun j => Col (S j)) (seq 0 m)) (shape a b)
  = map (fun j => Col (S j)) (seq (a + b) (m - (a + b))).
Proof.
  induction m as [|m IH]; [done|].
  rewrite seq_S, map_app, list_difference_app, IH. simpl.
  destruct (decide_rel elem_of (Col (S m)) (shape a b)) as [Hin|Hin];
    rewrite elem_of_shape_Col in Hin.
  - replace (S m - (a + b))%nat with 0%nat by lia.
    replace (m - (a + b))%nat with 0%nat by lia. done.
  - replace (S m - (a + b))%nat with (S (m - (a + b))) by lia.
    rewrite seq_S, map_app. simpl. do 3 f_equal. lia.
Qed.

Lemma shape_step (a b m : nat) :
  shape a b
  ++ list_difference (map (fun j => Col (S j)) (seq 0 m) ++ [DateCol])
                     (shape a b)
  = shape a (max (a + b) m - a).
Proof.
  rewrite list_difference_app, list_difference_shape. simpl.
  destruct (decide_rel elem_of DateCol (shape a b)) as [_|Hin];
    [|destruct Hin; apply elem_of_shape_DateCol].
  rewrite app_nil_r. unfold shape. rewrite <-app_assoc. simpl.
  do 2 f_equal. rewrite <-map_app, <-seq_app. do 2 f_equal. lia.
Qed.

Lemma union_labels_shape (tables : list (list Line))
    (dates : list Timestamp) (a b : nat) :
  length tables = length dates →
  fold_left (fun acc index => acc ++ list_difference index acc)
            (map Raw.labels (zip_with Raw.set_date tables dates)) (shape a b)
  = shape a (max (a + b) (max_list (map Raw.extra_width tables)) - a).
Proof.
  revert dates b. induction tables as [|t tables IH]; intros [|d dates] b Hlen;
    simpl in *; try done.
  - f_equal. lia.
  - rewrite shape_step, IH by lia. f_equal. lia.
Qed.

(** The frame that [pd.concat] builds from the files has the columns of the
    widest file, and the date. *)
Lemma union_labels_files (tables : list (list Line)) (dates : list Timestamp) :
  length tables = length dates → tables ≠ [] →
  ∃ a b,
    Raw.union_labels (map Raw.labels (zip_with Raw.set_date tables dates))
    = shape a b
    ∧ head (map Raw.extra_width tables) = Some a
    ∧ (a + b)%nat = max_list (map Raw.extra_width tables).
Proof.
  destruct tables as [|t tables], dates as [|d dates]; try done.
  intros Hlen _. simpl in Hlen.
  exists (Raw.extra_width t),
    (max_list (map Raw.extra_width (t :: tables)) - Raw.extra_width t)%nat.
  split_and!.
  - unfold Raw.union_labels. simpl. rewrite list_difference_nil_r.
    change (map (fun j => Col (S j)) (seq 0 (Raw.extra_width t)) ++ [DateCol])
      with (shape (Raw.extra_width t) 0).
    rewrite union_labels_shape by lia. f_equal. simpl. lia.
  - done.
  - simpl. lia.
Qed.

Lemma max_list_file_width (tables : list (list Line)) :
  tables ≠ [] →
  max_list (map file_width tables) = S (max_list (map Raw.extra_width tables)).
Proof.
  induction tables as [|t tables IH]; [done|]. intros _.
  destruct tables as [|t' tables].
  - simpl. unfold file_width. lia.
  - specialize (IH ltac:(done)). simpl in *. rewrite IH. unfold file_width, id.
    lia.
Qed.

Section Columns.

Variable to_datetime : string -> result Timestamp.
Variable to_timestamp : string -> result Timestamp.
Variable fs : FileSystem.

(** The number of columns of the frame loaded is the number of columns of
    the widest file of the folder, and one for the date, whatever rows the
    cutoff leaves. *)
Lemma load_data_columns time_point folder_path names tables df :
  listdir fs folder_path = Ok names →
  Forall2 (fun f rows => read_csv fs (path_join folder_path f) = Ok rows)
          (csv_files names) tables →
  load_data to_datetime to_timestamp fs time_point folder_path = Ok df →
  length (Raw.columns df) = S (max_list (map file_width tables)).
Proof.
  intros Hnames Htables
    (names' & frames & c & Hnames' & Hframes & Hne & _ & ->)%load_data_Ok_frames.
  assert (names' = names) as -> by congruence.
  apply load_files_Ok_inv in Hframes as (tables' & dates & Htables' & Hdates & ->).
  assert (tables' = tables) as ->.
  { clear Hne Hdates. revert tables' Htables'.
    induction Htables as [|f t files tables Ht _ IH]; intros tables' Htables';
      inversion Htables' as [|? t' ? tables'' Ht' Htables'']; subst; [done|].
    f_equal; [congruence | by apply IH]. }
  assert (length tables = length dates) as Hlen.
  { apply Forall2_length in Htables, Hdates. lia. }
  assert (tables ≠ []) as Htne.
  { intros ->. by destruct dates. }
  destruct (union_labels_files tables dates Hlen Htne) as (a & b & -> & _ & Hab).
  unfold Raw.columns. simpl. rewrite shape_length, Hab.
  by rewrite max_list_file_width.
Qed.

(** X9.  The frame of a meter folder has the columns of its widest file and
    the date, whatever rows the cutoff leaves in it; when the widest file
    does not have sixteen columns the meter normaliser raises a length
    mismatch that reports that number against the seventeen names, also on
    a frame without rows, and nothing is converted. *)
Theorem Sm_normalize_wrong_width time_point folder_path names tables df :
  listdir fs folder_path = Ok names →
  Forall2 (fun f rows => read_csv fs (path_join folder_path f) = Ok rows)
          (csv_files names) tables →
  load_data to_datetime to_timestamp fs time_point folder_path = Ok df →
  max_list (map file_width tables) ≠ 16%nat →
  length (Raw.columns df) = S (max_list (map file_width tables))
  ∧ Sm.normalize df
    = Raise (LengthMismatch (S (max_list (map file_width tables))) 17).
Proof.
  intros Hnames Htables Hload Hwidth.
  pose proof (load_data_columns _ _ _ _ _ Hnames Htables Hload) as Hlen.
  split; [done|]. unfold Sm.normalize.
  destruct (Sm_set_columns_cases df) as [[Hlen' _]|[_ ->]]; [lia|].
  by rewrite Hlen.
Qed.

(** X10.  The frame of a plug folder has the columns of its widest file and
    the date, whatever rows the cutoff leaves in it; when the widest file
    does not have exactly one column the plug normaliser raises a length
    mismatch that reports the number of columns of the frame against the
    two names, also on a frame without rows. *)
Theorem Plug_normalize_wrong_width time_point folder_path names tables df :
  listdir fs folder_path = Ok names →
  Forall2 (fun f rows => read_csv fs (path_join folder_path f) = Ok rows)
          (csv_files names) tables →
  load_data to_datetime to_timestamp fs time_point folder_path = Ok df →
  max_list (map file_width tables) ≠ 1%nat →
  length (Raw.columns df) = S (max_list (map file_width tables))
  ∧ Plug.normalize df
    = Raise (LengthMismatch (S (max_list (map file_width tables))) 2).
Proof.
  intros Hnames Htables Hload Hwidth.
  pose proof (load_data_columns _ _ _ _ _ Hnames Htables Hload) as Hlen.
  split; [done|]. unfold Plug.normalize.
  destruct (Plug_set_columns_cases df) as [[Hlen' _]|[_ ->]]; [lia|].
  by rewrite Hlen.
Qed.

End Columns.

(** ** More on the normaliser *)

(** X8.  The assignment of the names succeeds exactly when the frame has
    seventeen columns (two, for a plug frame), whatever its rows and also
    when it has none; it keeps every cell in place: the named frame read
    back by position is the frame given. *)
Theorem set_columns_round_trip (df : DataFrame) (sm : Sm.Frame)
    (pl : Plug.Frame) :
  (Sm.set_columns df = Ok sm
   ↔ length (Raw.columns df) = 17%nat
     ∧ map Sm.values sm = map (Raw.values df) (Raw.rows df))
  ∧ (Plug.set_columns df = Ok pl
     ↔ length (Raw.columns df) = 2%nat
       ∧ map Plug.values pl = map (Raw.values df) (Raw.rows df))
  ∧ (is_Ok (Sm.set_columns df) = true ↔ length (Raw.columns df) = 17%nat)
  ∧ (is_Ok (Plug.set_columns df) = true ↔ length (Raw.columns df) = 2%nat).
Proof.
  split_and!.
  - apply Sm_set_columns_Ok.
  - apply Plug_set_columns_Ok.
  - destruct (Sm_set_columns_cases df) as [[Hlen (named & -> & _)]|[Hlen ->]];
      simpl; split; done.
  - destruct (Plug_set_columns_cases df) as [[Hlen (named & -> & _)]|[Hlen ->]];
      simpl; split; done.
Qed.

Lemma Sm_values_to_kwh (r : Sm.Row) :
  Sm.values (Sm.to_kwh_row r)
  = Num (kwh (Sm.powerallphases r)) :: tail (Sm.values r).
Proof. done. Qed.

Lemma Plug_values_to_kwh (r : Plug.Row) :
  Plug.values (Plug.to_kwh_row r)
  = Num (kwh (Plug.power r)) :: tail (Plug.values r).
Proof. done. Qed.

(** X11.  On the frame of the loader, a successful normalisation changes the
    cell at position 0 of every row and nothing else: read back by position,
    the result is the input with column 0 divided by 3,600,000. *)
Theorem normalize_first_cell (df : DataFrame) (sm : Sm.Frame)
    (pl : Plug.Frame) :
  (Sm.normalize df = Ok sm →
   map Sm.values sm
   = map (fun r => Num (kwh (cell0 (Raw.cells r))) :: tail (Raw.values df r))
         (Raw.rows df))
  ∧ (Plug.normalize df = Ok pl →
     map Plug.values pl
     = map (fun r => Num (kwh (cell0 (Raw.cells r))) :: tail (Raw.values df r))
           (Raw.rows df)).
Proof.
  split.
  - intros (named & [_ Hnamed]%Sm_set_columns_Ok & [= <-])%bind_Ok.
    unfold Sm.to_kwh. rewrite map_map.
    revert Hnamed. generalize (Raw.rows df). intros rs. revert rs.
    induction named as [|r named IH]; intros [|r' rs] Hv; try done.
    rewrite !map_cons in Hv. apply (inj2 cons) in Hv as [Hr Hrs].
    rewrite !map_cons. f_equal; [|by apply IH].
    rewrite Sm_values_to_kwh, Hr. apply (f_equal head) in Hr.
    injection Hr as ->. done.
  - intros (named & [_ Hnamed]%Plug_set_columns_Ok & [= <-])%bind_Ok.
    unfold Plug.to_kwh. rewrite map_map.
    revert Hnamed. generalize (Raw.rows df). intros rs. revert rs.
    induction named as [|r named IH]; intros [|r' rs] Hv; try done.
    rewrite !map_cons in Hv. apply (inj2 cons) in Hv as [Hr Hrs].
    rewrite !map_cons. f_equal; [|by apply IH].
    rewrite Plug_values_to_kwh, Hr. apply (f_equal head) in Hr.
    injection Hr as ->. done.
Qed.

(** The meter folder of the sample holds files of one column; with the
    cutoff 2012-06-27 no row is left, and the names are refused all the
    same. *)
Lemma Sm_normalize_wrong_width_witness :
  load_data Iso.to_datetime Iso.to_timestamp Sample.fs "2012-06-27"
    Sample.folder
  = Ok (Sample.frame [])
  ∧ Sm.normalize (Sample.frame []) = Raise (LengthMismatch 2 17).
Proof.
  assert (load_data Iso.to_datetime Iso.to_timestamp Sample.fs "2012-06-27"
            Sample.folder = Ok (Sample.frame [])) as Hload by reflexivity.
  split; [exact Hload|].
  apply (Sm_normalize_wrong_width Iso.to_datetime Iso.to_timestamp Sample.fs
           "2012-06-27" Sample.folder Sample.names
           [[Sample.line 10; Sample.line 11]; [Sample.line 20];
            [Sample.line 30; Sample.line 31]]
           (Sample.frame [])).
  - reflexivity.
  - rewrite Sample_csv_files. repeat constructor.
  - exact Hload.
  - by vm_compute.
Defined.

(** A plug folder with a file of one column and a file of three: the frame
    has four columns, and the second row of the first file has no cell in
    two of them. *)
Lemma Plug_normalize_wrong_width_witness :
  load_data Iso.to_datetime Iso.to_timestamp Sample.fs time_point "eco/wide"
  = Ok (Raw.mkFrame [DateCol; Col 1; Col 2]
          [Sample.row 10 Sample.d27;
           Raw.mkRow (mkLine (Sample.q 20) [Sample.q 21; Sample.q 22])
                     Sample.d28])
  ∧ Plug.normalize
      (Raw.mkFrame [DateCol; Col 1; Col 2]
         [Sample.row 10 Sample.d27;
          Raw.mkRow (mkLine (Sample.q 20) [Sample.q 21; Sample.q 22])
                    Sample.d28])
    = Raise (LengthMismatch 4 2).
Proof.
  assert (load_data Iso.to_datetime Iso.to_timestamp Sample.fs time_point
            "eco/wide"
          = Ok (Raw.mkFrame [DateCol; Col 1; Col 2]
                  [Sample.row 10 Sample.d27;
                   Raw.mkRow (mkLine (Sample.q 20) [Sample.q 21; Sample.q 22])
                             Sample.d28])) as Hload by reflexivity.
  split; [exact Hload|].
  apply (Plug_normalize_wrong_width Iso.to_datetime Iso.to_timestamp Sample.fs
           time_point "eco/wide" ["2012-06-27.csv"; "2012-06-28.csv"]
           [[Sample.line 10]; [mkLine (Sample.q 20) [Sample.q 21; Sample.q 22]]]).
  - reflexivity.
  - assert (csv_files ["2012-06-27.csv"; "2012-06-28.csv"]
            = ["2012-06-27.csv"; "2012-06-28.csv"]) as ->
      by (vm_compute; reflexivity).
    repeat constructor.
  - exact Hload.
  - by vm_compute.
Defined.

(** A meter folder whose first file has one column and whose second has
    sixteen.  The frame has seventeen columns, the date second, so the names
    are accepted; the row of the first file has no cell in fifteen columns,
    and in both rows the date sits under [powerphase1] while the name
    [date] goes to the last column of the second file. *)
Example Sm_normalize_padded_frame :
  (load_data Iso.to_datetime Iso.to_timestamp Sample.fs time_point "eco/ragged"
   ≫= Sm.normalize)
  = Ok [Sm.mkRow (kwh (Sample.q 10)) (At Sample.d27)
          Missing Missing Missing Missing Missing Missing Missing Missing
          Missing Missing Missing Missing Missing Missing Missing;
        Sm.mkRow (kwh (Sample.q 20)) (At Sample.d28)
          (Num (Sample.q 1)) (Num (Sample.q 2)) (Num (Sample.q 3))
          (Num (Sample.q 4)) (Num (Sample.q 5)) (Num (Sample.q 6))
          (Num (Sample.q 7)) (Num (Sample.q 8)) (Num (Sample.q 9))
          (Num (Sample.q 10)) (Num (Sample.q 11)) (Num (Sample.q 12))
          (Num (Sample.q 13)) (Num (Sample.q 14)) (Num (Sample.q 15))].
Proof. reflexivity. Qed.

Lemma normalize_first_cell_witness :
  Plug.normalize (Sample.frame [Sample.row 3600000 Sample.d27])
  = Ok [Plug.mkRow (kwh (Sample.q 3600000)) (At Sample.d27)]
  ∧ map Plug.values [Plug.mkRow (kwh (Sample.q 3600000)) (At Sample.d27)]
    = [[Num (kwh (Sample.q 3600000)); At Sample.d27]].
Proof.
  split; [reflexivity|].
  apply (normalize_first_cell (Sample.frame [Sample.row 3600000 Sample.d27]) []
           [Plug.mkRow (kwh (Sample.q 3600000)) (At Sample.d27)]).
  reflexivity.
Defined.

(** ** The conversion and the order of the numbers *)

Lemma raw_per_kwh_pos : (0 < raw_per_kwh)%Qc.
Proof. reflexivity. Qed.

Lemma kwh_le (x y : Qc) : (x ≤ y)%Qc ↔ (kwh x ≤ kwh y)%Qc.
Proof.
  rewrite (Qcmult_le_mono_pos_r (kwh x) (kwh y) raw_per_kwh raw_per_kwh_pos).
  by rewrite !kwh_mult.
Qed.

Lemma kwh_lt (x y : Qc) : (x < y)%Qc ↔ (kwh x < kwh y)%Qc.
Proof.
  rewrite (Qcmult_lt_mono_pos_r (kwh x) (kwh y) raw_per_kwh raw_per_kwh_pos).
  by rewrite !kwh_mult.
Qed.

Lemma kwh_plus (x y : Qc) : kwh (x + y) = (kwh x + kwh y)%Qc.
Proof. unfold kwh. field. apply raw_per_kwh_nonzero. Qed.

Lemma kwh_total (l : list Qc) : total (map kwh l) = kwh (total l).
Proof.
  induction l as [|x l IH]; simpl.
  - by rewrite !total_nil, kwh_0.
  - by rewrite !total_cons, IH, kwh_plus.
Qed.

(** X12.  Over exact arithmetic, the conversion keeps the order, the
    equality and the sign of the readings, so a ranking of appliances or a
    peak is the same in both units.  (In binary64 the order survives the
    rounding of the division in the wide sense only: two neighbouring
    readings can convert to the same number and a tiny one to zero, see
    [kwh64_rounding].) *)
Theorem kwh_keeps_order (x y : Qc) :
  ((x ≤ y)%Qc ↔ (kwh x ≤ kwh y)%Qc)
  ∧ ((x < y)%Qc ↔ (kwh x < kwh y)%Qc)
  ∧ (x = y ↔ kwh x = kwh y)
  ∧ ((0 ≤ x)%Qc ↔ (0 ≤ kwh x)%Qc)
  ∧ (x = 0%Qc ↔ kwh x = 0%Qc).
Proof.
  split_and!.
  - apply kwh_le.
  - apply kwh_lt.
  - split; [by intros -> | apply kwh_inj].
  - rewrite <-kwh_0 at 2. apply kwh_le.
  - rewrite <-kwh_0 at 2. split; [by intros -> | apply kwh_inj].
Qed.

(** X13.  Converting a column and adding it up gives the converted sum of the
    raw column, on both kinds of frame. *)
Theorem to_kwh_total (sm : Sm.Frame) (pl : Plug.Frame) :
  total (map Sm.powerallphases (Sm.to_kwh sm))
  = kwh (total (map Sm.powerallphases sm))
  ∧ total (map Plug.power (Plug.to_kwh pl)) = kwh (total (map Plug.power pl)).
Proof.
  unfold Sm.to_kwh, Plug.to_kwh. rewrite !map_map. split.
  - rewrite <-kwh_total, map_map. done.
  - rewrite <-kwh_total, map_map. done.
Qed.

(** ** More on the aggregation *)

#[global] Instance pair_le_trans : Transitive pair_le.
Proof.
  intros [h1 a1] [h2 a2] [h3 a3]. unfold pair_le. simpl.
  intros [[Hne12 H12]|[-> H12]] [[Hne23 H23]|[-> H23]].
  - left. split; [|by etrans]. intros ->.
    apply Hne12. by apply (anti_symm String.le).
  - left. done.
  - left. done.
  - right. split; [done | by etrans].
Qed.

#[global] Instance pair_le_antisymm : AntiSymm (=) pair_le.
Proof.
  intros [h1 a1] [h2 a2]. unfold pair_le. simpl.
  intros [[Hne12 H12]|[-> H12]] [[Hne21 H21]|[Heq H21]]; try done.
  - destruct Hne12. by apply (anti_symm String.le).
  - f_equal. by apply (anti_symm String.le).
Qed.

Lemma NoDup_keys_inj {K} `{EqDecision K} (acc : list (K * Qc))
    (x y : K * Qc) :
  NoDup (map fst acc) → x ∈ acc → y ∈ acc → x.1 = y.1 → x = y.
Proof.
  intros Hnd Hx Hy Hxy. destruct x as [k s], y as [k' s']. simpl in *. subst k'.
  pose proof (NoDup_keys_filter acc k s Hnd Hx) as Hf.
  assert ((k, s') ∈ filter (fun e : K * Qc => e.1 = k) acc) as Hin
    by by apply list_elem_of_filter.
  rewrite Hf in Hin. by apply list_elem_of_singleton in Hin.
Qed.

Section GroupByOrder.

Context {K : Type} `{EqDecision K}.
Context (le : relation K) `{forall x y, Decision (le x y)}.
Context `{!Transitive le, !AntiSymm (=) le, !Total le}.
Context {A : Type}.

Let by_key (x y : K * Qc) : Prop := le x.1 y.1.

Lemma groupby_sum_StronglySorted (key : A -> K) (val : A -> Qc)
    (rows : list A) :
  StronglySorted by_key (groupby_sum le key val rows).
Proof.
  apply StronglySorted_merge_sort.
  - intros x y z. unfold by_key. apply transitivity.
  - intros x y. unfold by_key. apply base.total, _.
Qed.

(** Sorted by key and one row per key: such a list is determined by its
    rows. *)
Lemma sorted_groups_unique (l l' : list (K * Qc)) :
  NoDup (map fst l) → StronglySorted by_key l → StronglySorted by_key l' →
  l ≡ₚ l' → l = l'.
Proof.
  intros Hnd Hl Hl' Hperm.
  apply (StronglySorted_unique_strong by_key); [|done..].
  intros x y Hx Hy Hxy Hyx. rewrite <-Hperm in Hy.
  apply (NoDup_keys_inj l); [done..|]. by apply (anti_symm le).
Qed.

Lemma groupby_sum_Permutation_rows (key : A -> K) (val : A -> Qc)
    (rows rows' : list A) :
  rows ≡ₚ rows' → groupby_sum le key val rows = groupby_sum le key val rows'.
Proof.
  intros Hperm. apply sorted_groups_unique.
  - apply groupby_sum_NoDup.
  - apply groupby_sum_StronglySorted.
  - apply groupby_sum_StronglySorted.
  - apply NoDup_Permutation.
    + eapply NoDup_fmap_1, groupby_sum_NoDup.
    + eapply NoDup_fmap_1, groupby_sum_NoDup.
    + intros [k s]. rewrite !groupby_sum_elem. unfold rows_of.
      assert (filter (fun r => key r = k) rows
              ≡ₚ filter (fun r => key r = k) rows') as Hf by by rewrite Hperm.
      split; intros [Hne ->]; (split; [|by rewrite Hf]); intros Hnil;
        apply Hne; rewrite Hnil in Hf.
      * by apply Permutation_nil_r in Hf.
      * by apply Permutation_nil_l in Hf.
Qed.

(** Applying a map [g] to the values before the pass, when [g] is additive,
    is applying it to the sums. *)
Lemma groupby_sum_additive (g : Qc -> Qc) (key : A -> K) (val : A -> Qc)
    (rows : list A) :
  g 0%Qc = 0%Qc → (∀ x y, g (x + y)%Qc = (g x + g y)%Qc) →
  groupby_sum le key (fun r => g (val r)) rows
  = map (fun e => (e.1, g e.2)) (groupby_sum le key val rows).
Proof.
  intros Hg0 Hg.
  assert (∀ k v acc,
            add_to k (g v) (map (fun e : K * Qc => (e.1, g e.2)) acc)
            = map (fun e : K * Qc => (e.1, g e.2)) (add_to k v acc)) as Hadd.
  { intros k v acc. induction acc as [|[k' s] acc IH]; simpl.
    - by rewrite Hg, Hg0.
    - destruct (decide (k = k')); simpl; [by rewrite Hg | by rewrite IH]. }
  assert (∀ acc,
            fold_left (fun acc r => add_to (key r) (g (val r)) acc) rows
              (map (fun e : K * Qc => (e.1, g e.2)) acc)
            = map (fun e : K * Qc => (e.1, g e.2))
                (fold_left (fun acc r => add_to (key r) (val r) acc) rows acc))
    as Hfold.
  { induction rows as [|r rows IH]; intros acc; simpl; [done|].
    by rewrite Hadd, IH. }
  apply sorted_groups_unique.
  - apply groupby_sum_NoDup.
  - apply groupby_sum_StronglySorted.
  - apply StronglySorted_fmap with (R1 := by_key); [done|].
    apply groupby_sum_StronglySorted.
  - rewrite !groupby_sum_Permutation. unfold group_sums.
    by rewrite <-(Hfold []).
Qed.

End GroupByOrder.

(** X14.  The rows of [total_power]: one for each pair of a household and an
    appliance that has plug rows, provided the household has meter rows.
    Plug rows of a household without meter rows, and meter rows of a
    household without plug rows, leave no trace in it. *)
Theorem total_power_rows (combined_plugs : list (Housed Appliance))
    (combined_sm : list (Housed Sm.Row)) (r : Total.Row) :
  r ∈ total_power combined_plugs combined_sm ↔
  rows_of plug_key (Total.household r, Total.appliance r) combined_plugs ≠ []
  ∧ rows_of household (Total.household r) combined_sm ≠ []
  ∧ Total.power r
    = total (map plug_power
               (rows_of plug_key (Total.household r, Total.appliance r)
                        combined_plugs))
  ∧ Total.powerallphases r
    = total (map sm_power (rows_of household (Total.household r) combined_sm)).
Proof.
  unfold total_power, total_appliance_power, total_household_power.
  rewrite merge_elem, !groupby_sum_elem. tauto.
Qed.

Lemma merge_no_household (h : string) (left : list (string * string * Qc))
    (right : list (string * Qc)) :
  h ∉ map fst right → rows_of Total.household h (merge_on_household left right) = [].
Proof.
  intros Hh. apply filter_none, Forall_forall.
  intros r [_ Hr]%merge_elem <-. apply Hh.
  apply list_elem_of_fmap. by exists (Total.household r, Total.powerallphases r).
Qed.

Lemma merge_cons (l : string * string * Qc)
    (left : list (string * string * Qc)) (right : list (string * Qc)) :
  merge_on_household (l :: left) right
  = (filter (fun r => r.1 = l.1.1) right
     ≫= fun r => [Total.mkRow l.1.1 l.1.2 l.2 r.2])
    ++ merge_on_household left right.
Proof. done. Qed.

(** The keys of the joined rows: the keys of the left rows whose household
    is on the right, in the order of the left rows. *)
Lemma merge_keys (left : list (string * string * Qc))
    (right : list (string * Qc)) :
  NoDup (map fst right) →
  map (fun r => (Total.household r, Total.appliance r))
      (merge_on_household left right)
  = filter (fun k => k.1 ∈ map fst right) (map fst left).
Proof.
  intros Hnd. induction left as [|[[h a] p] left IH]; [done|].
  rewrite merge_cons, map_app, IH, map_cons, filter_cons. simpl.
  destruct (decide (h ∈ map fst right)) as [Hin|Hin].
  - apply list_elem_of_fmap in Hin as ([h' T] & -> & Hin). simpl.
    by rewrite (NoDup_keys_filter _ h' T Hnd Hin).
  - rewrite filter_none; [done|]. apply Forall_forall.
    intros [h' T] Hin' ?. simpl in *. subst h'. apply Hin.
    apply list_elem_of_fmap. by exists (h, T).
Qed.

(** X15.  The rows of [total_power] come in increasing order of the pair of
    household and appliance, and no pair comes twice: the frame has at most
    one row for an appliance of a household, and none for a household
    without meter rows. *)
Theorem total_power_sorted_unique (combined_plugs : list (Housed Appliance))
    (combined_sm : list (Housed Sm.Row)) :
  NoDup (map (fun r => (Total.household r, Total.appliance r))
             (total_power combined_plugs combined_sm))
  ∧ StronglySorted pair_le
      (map (fun r => (Total.household r, Total.appliance r))
           (total_power combined_plugs combined_sm))
  ∧ ∀ h, rows_of household h combined_sm = [] →
         rows_of Total.household h (total_power combined_plugs combined_sm)
         = [].
Proof.
  unfold total_power.
  rewrite merge_keys by apply groupby_sum_NoDup.
  split_and!.
  - apply NoDup_filter, groupby_sum_NoDup.
  - apply StronglySorted_filter.
    apply StronglySorted_fmap with (R1 := fun x y => pair_le x.1 y.1);
      [done|]. apply (groupby_sum_StronglySorted pair_le).
  - intros h Hnil. apply merge_no_household.
    unfold total_household_power. rewrite groupby_sum_keys. by intros Hne.
Qed.

Lemma total_nonneg (l : list Qc) :
  Forall (fun x => (0 ≤ x)%Qc) l → (0 ≤ total l)%Qc.
Proof.
  induction 1 as [|x l Hx _ IH]; [by rewrite total_nil|].
  rewrite total_cons. replace 0%Qc with (0 + 0)%Qc by ring.
  by apply Qcplus_le_compat.
Qed.

(** X16.  Over exact arithmetic: with plug readings that are not negative
    and a meter total above zero, the percentage of a row of [total_power]
    is a finite number that is not negative; it is at most 100 exactly when
    the appliance total does not exceed the meter total, which the code
    does not enforce.  (In binary64 a positive total can underflow to zero
    in the conversion and a quotient can overflow, see [kwh64_rounding];
    the cell is then infinite.) *)
Theorem percentage_range (combined_plugs : list (Housed Appliance))
    (combined_sm : list (Housed Sm.Row)) (r : Total.Row) :
  r ∈ total_power combined_plugs combined_sm →
  Forall (fun x => (0 ≤ plug_power x)%Qc) combined_plugs →
  (0 < Total.powerallphases r)%Qc →
  ∃ q, percentage r = Fin q
       ∧ (0 ≤ q)%Qc
       ∧ ((Total.power r ≤ Total.powerallphases r)%Qc ↔ (q ≤ Qc_of_Z 100)%Qc).
Proof.
  intros [Hl _]%merge_elem Hplugs HT.
  apply groupby_sum_elem in Hl as [_ Hp].
  assert (0 ≤ Total.power r)%Qc as Hpow.
  { rewrite Hp. apply total_nonneg, Forall_forall.
    intros x (y & -> & [_ Hy]%list_elem_of_filter)%list_elem_of_fmap.
    by eapply Forall_forall in Hplugs. }
  assert (Total.powerallphases r ≠ 0%Qc) as HT0.
  { intros H0. rewrite H0 in HT. by apply Qclt_not_eq in HT. }
  exists (Total.power r / Total.powerallphases r * Qc_of_Z 100)%Qc.
  split; [by rewrite percentage_cases, decide_False|].
  assert (0 < / Total.powerallphases r)%Qc as Hinv by by apply Qcinv_pos.
  split.
  - apply Qcmult_nonneg_nonneg; [|by apply Qclt_le_weak, hundred_pos].
    apply Qcmult_nonneg_nonneg; [done | by apply Qclt_le_weak].
  - rewrite (Qcmult_le_mono_pos_r (Total.power r) (Total.powerallphases r)
               (/ Total.powerallphases r * Qc_of_Z 100)%Qc)
      by (apply Qcmult_pos_pos; [done | apply hundred_pos]).
    replace (Total.powerallphases r
             * (/ Total.powerallphases r * Qc_of_Z 100))%Qc
      with (Qc_of_Z 100) by by field.
    replace (Total.power r * (/ Total.powerallphases r * Qc_of_Z 100))%Qc
      with (Total.power r / Total.powerallphases r * Qc_of_Z 100)%Qc
      by by field.
    done.
Qed.

Lemma percentage_range_witness :
  Total.mkRow "Household 4" "05" (Sample.q 5) (Sample.q 20)
  ∈ total_power SampleTotals.plugs SampleTotals.meters
  ∧ ∃ q, percentage (Total.mkRow "Household 4" "05" (Sample.q 5) (Sample.q 20))
         = Fin q
         ∧ (0 ≤ q)%Qc
         ∧ ((Sample.q 5 ≤ Sample.q 20)%Qc ↔ (q ≤ Qc_of_Z 100)%Qc).
Proof.
  assert (Total.mkRow "Household 4" "05" (Sample.q 5) (Sample.q 20)
          ∈ total_power SampleTotals.plugs SampleTotals.meters) as Hin.
  { apply merge_elem. split; vm_compute; repeat constructor. }
  split; [exact Hin|].
  apply (percentage_range SampleTotals.plugs SampleTotals.meters _ Hin).
  - repeat constructor; by vm_compute.
  - reflexivity.
Defined.

(** X17.  The aggregation does not depend on the order of the rows of the
    combined frames. *)
Theorem total_power_Permutation (plugs plugs' : list (Housed Appliance))
    (sm sm' : list (Housed Sm.Row)) :
  plugs ≡ₚ plugs' → sm ≡ₚ sm' → total_power plugs sm = total_power plugs' sm'.
Proof.
  intros Hplugs Hsm. unfold total_power, total_appliance_power,
    total_household_power.
  rewrite (groupby_sum_Permutation_rows pair_le _ _ _ _ Hplugs).
  by rewrite (groupby_sum_Permutation_rows String.le _ _ _ _ Hsm).
Qed.

Lemma total_power_Permutation_witness :
  total_power (reverse SampleTotals.plugs) (reverse SampleTotals.meters)
  = total_power SampleTotals.plugs SampleTotals.meters.
Proof.
  apply total_power_Permutation; apply reverse_Permutation.
Defined.

Lemma inf_of_sign_kwh (q : Qc) : inf_of_sign (kwh q) = inf_of_sign q.
Proof.
  unfold inf_of_sign.
  destruct (decide (0 < q)%Qc) as [Hq|Hq].
  - rewrite decide_True; [done|]. rewrite <-kwh_0.
    by apply (proj1 (kwh_lt _ _)).
  - rewrite decide_False; [done|]. rewrite <-kwh_0.
    intros Hk. by apply Hq, (proj2 (kwh_lt _ _)).
Qed.

Lemma percentage_kwh (h a : string) (p T : Qc) :
  percentage (Total.mkRow h a (kwh p) (kwh T))
  = percentage (Total.mkRow h a p T).
Proof.
  rewrite !percentage_cases. simpl.
  destruct (decide (T = 0%Qc)) as [->|HT].
  - rewrite kwh_0, decide_True by done.
    destruct (decide (p = 0%Qc)) as [->|Hp].
    + by rewrite kwh_0, decide_True.
    + rewrite decide_False; [apply inf_of_sign_kwh|].
      rewrite <-kwh_0. by intros ?%kwh_inj.
  - rewrite decide_False; [|rewrite <-kwh_0; by intros ?%kwh_inj].
    f_equal. unfold kwh. field. split; [done | apply raw_per_kwh_nonzero].
Qed.

Lemma merge_inner_map (gp gt : Qc -> Qc) (h a : string) (p : Qc)
    (right : list (string * Qc)) :
  (filter (fun r => r.1 = h) (map (fun e => (e.1, gt e.2)) right)
   ≫= fun r => [Total.mkRow h a (gp p) r.2])
  = map (fun r => Total.mkRow (Total.household r) (Total.appliance r)
                    (gp (Total.power r)) (gt (Total.powerallphases r)))
        (filter (fun r => r.1 = h) right
         ≫= fun r => [Total.mkRow h a p r.2]).
Proof.
  induction right as [|[h' T] right IH]; [done|].
  rewrite map_cons, !filter_cons. simpl.
  destruct (decide (h' = h)); [|done].
  rewrite !bind_cons, IH. done.
Qed.

Lemma merge_map (gp gt : Qc -> Qc) (left : list (string * string * Qc))
    (right : list (string * Qc)) :
  merge_on_household (map (fun e => (e.1, gp e.2)) left)
                     (map (fun e => (e.1, gt e.2)) right)
  = map (fun r => Total.mkRow (Total.household r) (Total.appliance r)
                    (gp (Total.power r)) (gt (Total.powerallphases r)))
        (merge_on_household left right).
Proof.
  induction left as [|[[h a] p] left IH]; [done|].
  rewrite map_cons, !merge_cons, map_app, IH. f_equal.
  apply merge_inner_map.
Qed.

(** X18.  The percentage column does not depend on the unit: computed from the
    converted frames, as the notebook does, or from the same frames without
    the conversion, it is the same column (over exact arithmetic). *)
Theorem percentages_unit_free (combined_plugs : list (Housed Appliance))
    (combined_sm : list (Housed Sm.Row)) :
  percentages (total_power (converted_plugs combined_plugs)
                           (converted_sm combined_sm))
  = percentages (total_power combined_plugs combined_sm).
Proof.
  unfold total_power, total_appliance_power, total_household_power.
  assert (groupby_sum pair_le plug_key plug_power
            (converted_plugs combined_plugs)
          = groupby_sum pair_le plug_key (fun r => kwh (plug_power r))
              combined_plugs) as ->.
  { unfold groupby_sum, group_sums, converted_plugs. f_equal.
    generalize (@nil (string * string * Qc)).
    induction combined_plugs as [|r rows IH]; intros acc; [done|].
    simpl. by rewrite IH. }
  assert (groupby_sum String.le household sm_power (converted_sm combined_sm)
          = groupby_sum String.le household (fun r => kwh (sm_power r))
              combined_sm) as ->.
  { unfold groupby_sum, group_sums, converted_sm. f_equal.
    generalize (@nil (string * Qc)).
    induction combined_sm as [|r rows IH]; intros acc; [done|].
    simpl. by rewrite IH. }
  rewrite (groupby_sum_additive pair_le kwh) by (apply kwh_0 || apply kwh_plus).
  rewrite (groupby_sum_additive String.le kwh) by (apply kwh_0 || apply kwh_plus).
  rewrite merge_map. unfold percentages. rewrite map_map.
  apply map_ext. intros [h a p T]. apply percentage_kwh.
Qed.

(** The frames the notebook combines are converted ones: labelling a
    converted frame is converting the labelled frame. *)
Lemma converted_labels (h a : string) (sm : Sm.Frame) (pl : Plug.Frame) :
  assign_household h (Sm.to_kwh sm) = converted_sm (assign_household h sm)
  ∧ assign_household h (assign_appliance a (Plug.to_kwh pl))
    = converted_plugs (assign_household h (assign_appliance a pl)).
Proof.
  unfold assign_household, assign_appliance, converted_sm, converted_plugs,
    Sm.to_kwh, Plug.to_kwh.
  by rewrite !map_map.
Qed.

(** ** From the frames of the appliances to their totals *)

Lemma rows_of_app {A K} `{EqDecision K} (key : A -> K) (k : K)
    (l1 l2 : list A) :
  rows_of key k (l1 ++ l2) = rows_of key k l1 ++ rows_of key k l2.
Proof. apply list.filter_app. Qed.

Lemma rows_of_assign_appliance (code code' : string) (df : Plug.Frame) :
  rows_of appliance code (assign_appliance code' df)
  = if decide (code' = code) then assign_appliance code' df else [].
Proof.
  unfold rows_of, assign_appliance. destruct (decide (code' = code)) as [->|Hne].
  - apply filter_all, Forall_forall. by intros r (? & -> & _)%list_elem_of_fmap.
  - apply filter_none, Forall_forall.
    by intros r (? & -> & _)%list_elem_of_fmap.
Qed.

Lemma rows_of_dict (code : string) (df : Plug.Frame)
    (plugs_data : list (string * Plug.Frame)) :
  NoDup (map fst plugs_data) → (code, df) ∈ plugs_data →
  rows_of appliance code
    (concat (map (fun item => assign_appliance item.1 item.2) plugs_data))
  = assign_appliance code df.
Proof.
  induction plugs_data as [|[code' df'] plugs_data IH]; simpl;
    [by intros _ ?%elem_of_nil|].
  rewrite NoDup_cons, elem_of_cons, rows_of_app, rows_of_assign_appliance.
  intros [Hcode' Hnd] [[= <- <-]|Hin].
  - rewrite decide_True by done.
    assert (rows_of appliance code
              (concat (map (fun item => assign_appliance item.1 item.2)
                           plugs_data)) = []) as ->; [|by rewrite app_nil_r].
    apply filter_none, Forall_forall.
    intros r (l & Hr & ([code'' df''] & -> & Hin)%list_elem_of_fmap)
      %elem_of_concat Hcode.
    apply list_elem_of_fmap in Hr as (? & -> & _). simpl in *. subst code''.
    apply Hcode'. apply list_elem_of_fmap. by exists (code, df'').
  - rewrite decide_False; [by apply IH|].
    intros ->. apply Hcode'. apply list_elem_of_fmap. by exists (code, df).
Qed.

Lemma rows_of_plug_key (label label' code : string) (rows : list Appliance) :
  rows_of plug_key (label, code) (assign_household label' rows)
  = if decide (label' = label)
    then assign_household label' (rows_of appliance code rows) else [].
Proof.
  unfold rows_of, assign_household, plug_key.
  induction rows as [|r rows IH]; simpl; [by destruct (decide _)|].
  rewrite !filter_cons. simpl.
  destruct (decide (label' = label)) as [->|Hne].
  - destruct (decide (appliance r = code)) as [->|Hcode].
    + rewrite decide_True by done. simpl. by rewrite IH.
    + rewrite decide_False by congruence. done.
  - rewrite decide_False by congruence. done.
Qed.

Lemma household_plugs_Ok (label : string)
    (plugs_data : list (string * Plug.Frame)) (rows : list (Housed Appliance)) :
  household_plugs label plugs_data = Ok rows →
  rows = assign_household label
           (concat (map (fun item => assign_appliance item.1 item.2)
                        plugs_data)).
Proof.
  intros (df & Hdf & [= <-])%bind_Ok. unfold pd_concat in Hdf.
  destruct (map _ plugs_data); [done|]. by injection Hdf as <-.
Qed.

Lemma combined_plugs_rows_of
    (plugs_data_04 plugs_data_05 plugs_data_06 : list (string * Plug.Frame))
    (combined : list (Housed Appliance)) (label code : string)
    (plugs_data : list (string * Plug.Frame)) (df : Plug.Frame) :
  combined_plugs_data plugs_data_04 plugs_data_05 plugs_data_06 = Ok combined →
  (label, plugs_data) ∈ [("Household 4", plugs_data_04);
                         ("Household 5", plugs_data_05);
                         ("Household 6", plugs_data_06)] →
  NoDup (map fst plugs_data) →
  (code, df) ∈ plugs_data →
  rows_of plug_key (label, code) combined
  = assign_household label (assign_appliance code df).
Proof.
  intros Hcombined Hlabel Hnd Hin.
  apply bind_Ok in Hcombined as (h4 & ->%household_plugs_Ok & Hcombined).
  apply bind_Ok in Hcombined as (h5 & ->%household_plugs_Ok & Hcombined).
  apply bind_Ok in Hcombined as (h6 & ->%household_plugs_Ok & [= <-]).
  rewrite !rows_of_app, !rows_of_plug_key.
  rewrite !elem_of_cons in Hlabel.
  destruct Hlabel as [[= -> ->]|[[= -> ->]|[[= -> ->]|[]%elem_of_nil]]];
    simpl; rewrite ?app_nil_r; by rewrite (rows_of_dict code df).
Qed.

(** X19.  The total that the aggregation gives to an appliance of a household is
    the sum of the power column of the frame stored for it in the dict of
    that household; an appliance whose frame has no row gets no total. *)
Theorem appliance_total_of_frame
    (plugs_data_04 plugs_data_05 plugs_data_06 : list (string * Plug.Frame))
    (combined : list (Housed Appliance)) (label code : string)
    (plugs_data : list (string * Plug.Frame)) (df : Plug.Frame) (s : Qc) :
  combined_plugs_data plugs_data_04 plugs_data_05 plugs_data_06 = Ok combined →
  (label, plugs_data) ∈ [("Household 4", plugs_data_04);
                         ("Household 5", plugs_data_05);
                         ("Household 6", plugs_data_06)] →
  NoDup (map fst plugs_data) →
  (code, df) ∈ plugs_data →
  (label, code, s) ∈ total_appliance_power combined
  ↔ df ≠ [] ∧ s = total (map Plug.power df).
Proof.
  intros Hcombined Hlabel Hnd Hin.
  unfold total_appliance_power. rewrite groupby_sum_elem.
  rewrite (combined_plugs_rows_of _ _ _ _ _ _ _ _ Hcombined Hlabel Hnd Hin).
  unfold assign_household, assign_appliance. rewrite !map_map. simpl.
  split; intros [Hne ->]; (split; [|done]); by destruct df.
Qed.

Lemma appliance_total_of_frame_witness :
  combined_plugs_data
    [("01", [Plug.mkRow (Sample.q 1) (At Sample.d27);
             Plug.mkRow (Sample.q 2) (At Sample.d28)]); ("02", [])]
    [("01", [Plug.mkRow (Sample.q 5) (At Sample.d27)])]
    [("01", [Plug.mkRow (Sample.q 7) (At Sample.d27)])]
  = Ok (assign_household "Household 4"
          (assign_appliance "01" [Plug.mkRow (Sample.q 1) (At Sample.d27);
                                  Plug.mkRow (Sample.q 2) (At Sample.d28)])
        ++ assign_household "Household 5"
             (assign_appliance "01" [Plug.mkRow (Sample.q 5) (At Sample.d27)])
        ++ assign_household "Household 6"
             (assign_appliance "01" [Plug.mkRow (Sample.q 7) (At Sample.d27)]))
  ∧ ("Household 4", "01",
     total [Sample.q 1; Sample.q 2])
    ∈ total_appliance_power
        (assign_household "Household 4"
           (assign_appliance "01" [Plug.mkRow (Sample.q 1) (At Sample.d27);
                                   Plug.mkRow (Sample.q 2) (At Sample.d28)])
         ++ assign_household "Household 5"
              (assign_appliance "01" [Plug.mkRow (Sample.q 5) (At Sample.d27)])
         ++ assign_household "Household 6"
              (assign_appliance "01" [Plug.mkRow (Sample.q 7) (At Sample.d27)])).
Proof.
  split; [reflexivity|].
  apply (appliance_total_of_frame
           [("01", [Plug.mkRow (Sample.q 1) (At Sample.d27);
                    Plug.mkRow (Sample.q 2) (At Sample.d28)]); ("02", [])]
           [("01", [Plug.mkRow (Sample.q 5) (At Sample.d27)])]
           [("01", [Plug.mkRow (Sample.q 7) (At Sample.d27)])]
           _ "Household 4" "01"
           [("01", [Plug.mkRow (Sample.q 1) (At Sample.d27);
                    Plug.mkRow (Sample.q 2) (At Sample.d28)]); ("02", [])]
           [Plug.mkRow (Sample.q 1) (At Sample.d27);
            Plug.mkRow (Sample.q 2) (At Sample.d28)]).
  - reflexivity.
  - apply list_elem_of_here.
  - apply NoDup_cons. split; [|apply NoDup_singleton].
    by intros [=]%list_elem_of_singleton.
  - apply list_elem_of_here.
  - split; [discriminate | reflexivity].
Defined.

(** ** The cells in sequence *)

Section NotebookFacts.

Variable to_datetime : string -> result Timestamp.
Variable to_timestamp : string -> result Timestamp.
Variable fs : FileSystem.
Variable tp : string.

Lemma load_plugs_Ok (folder : string) (codes : list string)
    (d : list (string * DataFrame)) :
  load_plugs to_datetime to_timestamp fs tp folder codes = Ok d →
  map fst d = codes
  ∧ ∀ code df, (code, df) ∈ d →
      load_data to_datetime to_timestamp fs tp (folder +:+ code) = Ok df.
Proof.
  unfold load_plugs. rewrite mapM_Ok.
  induction 1 as [|code [code' df] codes d Hcode _ [IH1 IH2]];
    [by split; [|intros ?? ?%elem_of_nil]|].
  apply bind_Ok in Hcode as (df' & Hdf & [= <- <-]). split.
  - simpl. by rewrite IH1.
  - intros c df0 [[= -> ->]|Hin]%elem_of_cons; [done | by apply IH2].
Qed.

Lemma normalize_plugs_Ok (d : list (string * DataFrame))
    (d' : list (string * Plug.Frame)) :
  normalize_plugs d = Ok d' →
  map fst d' = map fst d
  ∧ ∀ code pl, (code, pl) ∈ d' →
      ∃ df, (code, df) ∈ d ∧ Plug.normalize df = Ok pl.
Proof.
  unfold normalize_plugs. rewrite mapM_Ok.
  induction 1 as [|[code df] [code' pl] d d' Hitem _ [IH1 IH2]];
    [by split; [|intros ?? ?%elem_of_nil]|].
  simpl in Hitem. apply bind_Ok in Hitem as (pl' & Hpl & [= <- <-]). split.
  - simpl. by rewrite IH1.
  - intros c pl0 [[= -> ->]|Hin]%elem_of_cons.
    + exists df. split; [apply list_elem_of_here | done].
    + destruct (IH2 _ _ Hin) as (df0 & ? & ?). exists df0.
      split; [by apply list_elem_of_further | done].
Qed.

(** A frame that the normaliser accepts has the right number of columns,
    and its power column is the converted column 0. *)
Lemma Sm_normalize_Ok (df : DataFrame) (sm : Sm.Frame) :
  Sm.normalize df = Ok sm →
  length (Raw.columns df) = 17%nat
  ∧ map Sm.powerallphases sm = map kwh (Raw.column0 df).
Proof.
  intros (named & [Hlen Hnamed]%Sm_set_columns_Ok & [= <-])%bind_Ok.
  split; [done|]. by rewrite Sm_to_kwh_power, (Sm_values_column0 df).
Qed.

Lemma Plug_normalize_Ok (df : DataFrame) (pl : Plug.Frame) :
  Plug.normalize df = Ok pl →
  length (Raw.columns df) = 2%nat
  ∧ map Plug.power pl = map kwh (Raw.column0 df).
Proof.
  intros (named & [Hlen Hnamed]%Plug_set_columns_Ok & [= <-])%bind_Ok.
  split; [done|]. by rewrite Plug_to_kwh_power, (Plug_values_column0 df).
Qed.

(** One household of the plug cell: the dict has the codes as keys, and
    each frame is the conversion of the frame of two columns of its
    folder. *)
Lemma plugs_of_household (folder : string) (codes : list string)
    (d : list (string * DataFrame)) (d' : list (string * Plug.Frame)) :
  load_plugs to_datetime to_timestamp fs tp folder codes = Ok d →
  normalize_plugs d = Ok d' →
  map fst d' = codes
  ∧ ∀ code pl, (code, pl) ∈ d' →
      ∃ df, load_data to_datetime to_timestamp fs tp (folder +:+ code) = Ok df
            ∧ length (Raw.columns df) = 2%nat
            ∧ map Plug.power pl = map kwh (Raw.column0 df).
Proof.
  intros [Hkeys Hload]%load_plugs_Ok [Hkeys' Hnorm]%normalize_plugs_Ok.
  split; [congruence|]. intros code pl Hin.
  destruct (Hnorm _ _ Hin) as (df & Hdf & [Hlen Hpl]%Plug_normalize_Ok).
  exists df. split_and!; [by apply Hload | done..].
Qed.

End NotebookFacts.

Lemma combined_plugs_elem
    (plugs_data_04 plugs_data_05 plugs_data_06 : list (string * Plug.Frame))
    (combined : list (Housed Appliance)) (x : Housed Appliance) :
  combined_plugs_data plugs_data_04 plugs_data_05 plugs_data_06 = Ok combined →
  x ∈ combined →
  ∃ plugs_data df,
    (household x, plugs_data) ∈ [("Household 4", plugs_data_04);
                                 ("Household 5", plugs_data_05);
                                 ("Household 6", plugs_data_06)]
    ∧ (appliance (data x), df) ∈ plugs_data.
Proof.
  intros Hcombined Hx.
  apply bind_Ok in Hcombined as (h4 & ->%household_plugs_Ok & Hcombined).
  apply bind_Ok in Hcombined as (h5 & ->%household_plugs_Ok & Hcombined).
  apply bind_Ok in Hcombined as (h6 & ->%household_plugs_Ok & [= <-]).
  assert (∀ label pd, x ∈ assign_household label
                            (concat (map (fun item : string * Plug.Frame =>
                                            assign_appliance item.1 item.2) pd)) →
                      household x = label
                      ∧ ∃ df, (appliance (data x), df) ∈ pd) as Hone.
  { intros label pd (y & -> & Hy)%list_elem_of_fmap. split; [done|].
    apply elem_of_concat in Hy as (l & Hy & ([code df] & -> & Hin)%list_elem_of_fmap).
    apply list_elem_of_fmap in Hy as (? & -> & _). by exists df. }
  simpl in Hx. rewrite !elem_of_app in Hx.
  destruct Hx as [Hx|[Hx|[Hx|Hx%elem_of_nil]]]; [| | |done];
    apply Hone in Hx as [-> [df Hdf]].
  - exists plugs_data_04, df. split; [apply list_elem_of_here | done].
  - exists plugs_data_05, df.
    split; [apply list_elem_of_further, list_elem_of_here | done].
  - exists plugs_data_06, df.
    split; [do 2 apply list_elem_of_further; apply list_elem_of_here | done].
Qed.

Lemma combined_sm_rows_of (sm_data_04 sm_data_05 sm_data_06 : Sm.Frame)
    (combined : list (Housed Sm.Row)) (h : string) :
  combined_sm_data sm_data_04 sm_data_05 sm_data_06 = Ok combined →
  rows_of household h combined ≠ [] →
  ∃ sm, (h, sm) ∈ [("Household 4", sm_data_04); ("Household 5", sm_data_05);
                   ("Household 6", sm_data_06)]
        ∧ rows_of household h combined = assign_household h sm.
Proof.
  intros [= <-]. rewrite !rows_of_app, !rows_of_assign_household.
  destruct (decide ("Household 4" = h)) as [<-|H4].
  { intros _. exists sm_data_04. split; [apply list_elem_of_here|].
    simpl. by rewrite app_nil_r. }
  destruct (decide ("Household 5" = h)) as [<-|H5].
  { intros _. exists sm_data_05.
    split; [apply list_elem_of_further, list_elem_of_here|].
    simpl. by rewrite app_nil_r. }
  destruct (decide ("Household 6" = h)) as [<-|H6].
  { intros _. exists sm_data_06.
    split; [do 2 apply list_elem_of_further; apply list_elem_of_here|].
    simpl. by rewrite app_nil_r. }
  done.
Qed.

Lemma elem_of_plug_folders (label code folder : string) :
  (label, code, folder) ∈ plug_folders ↔
  (label = "Household 4"
   ∧ code ∈ ["01"; "02"; "03"; "04"; "05"; "06"; "07"; "08"]
   ∧ folder = ("eco/04_plugs_csv/" +:+ code)%string)
  ∨ (label = "Household 5"
     ∧ code ∈ ["01"; "02"; "03"; "04"; "05"; "06"; "07"; "08"]
     ∧ folder = ("eco/05_plugs_csv/" +:+ code)%string)
  ∨ (label = "Household 6"
     ∧ code ∈ ["01"; "02"; "03"; "04"; "05"; "06"; "07"]
     ∧ folder = ("eco/06_plugs_csv/" +:+ code)%string).
Proof.
  unfold plug_folders. rewrite !elem_of_app, !list_elem_of_fmap.
  split.
  - intros [(c & [= -> -> ->] & Hc)|[(c & [= -> -> ->] & Hc)
                                     |(c & [= -> -> ->] & Hc)]]; auto.
  - intros [(-> & Hc & ->)|[(-> & Hc & ->)|(-> & Hc & ->)]]; eauto 6.
Qed.

Lemma codes_NoDup :
  NoDup ["01"; "02"; "03"; "04"; "05"; "06"; "07"; "08"]
  ∧ NoDup ["01"; "02"; "03"; "04"; "05"; "06"; "07"].
Proof. split; apply (bool_decide_unpack _); by vm_compute. Qed.

(** The sum of a converted column is the converted sum of the column. *)
Lemma total_converted (powers column : list Qc) :
  powers = map kwh column → total powers = kwh (total column).
Proof. intros ->. apply kwh_total. Qed.

Section NotebookRun.

Variable to_datetime : string -> result Timestamp.
Variable to_timestamp : string -> result Timestamp.
Variable fs : FileSystem.
Variable tp : string.

(** What a run of the cells that ends with a frame has gone through. *)
Lemma notebook_Ok_inv (rows : list Total.Row) :
  notebook to_datetime to_timestamp fs tp = Ok rows →
  ∃ (s4 s5 s6 : Sm.Frame) p4 p5 p6 combined_sm combined_plugs,
    (∀ label folder sm,
       (label, folder, sm) ∈ [("Household 4", "eco/04_sm_csv", s4);
                              ("Household 5", "eco/05_sm_csv", s5);
                              ("Household 6", "eco/06_sm_csv", s6)] →
       ∃ df, load_data to_datetime to_timestamp fs tp folder = Ok df
             ∧ length (Raw.columns df) = 17%nat
             ∧ map Sm.powerallphases sm = map kwh (Raw.column0 df))
    ∧ combined_sm_data s4 s5 s6 = Ok combined_sm
    ∧ (∀ label folder codes pd,
         (label, folder, codes, pd)
         ∈ [("Household 4", "eco/04_plugs_csv/",
             ["01"; "02"; "03"; "04"; "05"; "06"; "07"; "08"], p4);
            ("Household 5", "eco/05_plugs_csv/",
             ["01"; "02"; "03"; "04"; "05"; "06"; "07"; "08"], p5);
            ("Household 6", "eco/06_plugs_csv/",
             ["01"; "02"; "03"; "04"; "05"; "06"; "07"], p6)] →
         map fst pd = codes
         ∧ ∀ code pl, (code, pl) ∈ pd →
             ∃ df, load_data to_datetime to_timestamp fs tp (folder +:+ code)
                   = Ok df
                   ∧ length (Raw.columns df) = 2%nat
                   ∧ map Plug.power pl = map kwh (Raw.column0 df))
    ∧ combined_plugs_data p4 p5 p6 = Ok combined_plugs
    ∧ rows = total_power combined_plugs combined_sm.
Proof.
  intros Hrun. unfold notebook in Hrun.
  apply bind_Ok in Hrun as ([[s4 s5] s6] & Hsm & Hrun).
  apply bind_Ok in Hrun as ([[p4 p5] p6] & Hplugs & Hrun).
  apply bind_Ok in Hrun as (combined_sm & Hcsm & Hrun).
  apply bind_Ok in Hrun as (combined_plugs & Hcpl & [= <-]).
  simpl in Hcsm, Hcpl.
  unfold load_sm_data in Hsm.
  apply bind_Ok in Hsm as (df4 & Hdf4 & Hsm).
  apply bind_Ok in Hsm as (df5 & Hdf5 & Hsm).
  apply bind_Ok in Hsm as (df6 & Hdf6 & Hsm).
  apply bind_Ok in Hsm as (s4' & [? ?]%Sm_normalize_Ok & Hsm).
  apply bind_Ok in Hsm as (s5' & [? ?]%Sm_normalize_Ok & Hsm).
  apply bind_Ok in Hsm as (s6' & [? ?]%Sm_normalize_Ok & [= -> -> ->]).
  unfold load_plugs_data in Hplugs.
  apply bind_Ok in Hplugs as (d4 & Hd4 & Hplugs).
  apply bind_Ok in Hplugs as (d5 & Hd5 & Hplugs).
  apply bind_Ok in Hplugs as (d6 & Hd6 & Hplugs).
  apply bind_Ok in Hplugs as (p4' & Hp4 & Hplugs).
  apply bind_Ok in Hplugs as (p5' & Hp5 & Hplugs).
  apply bind_Ok in Hplugs as (p6' & Hp6 & [= -> -> ->]).
  pose proof (plugs_of_household _ _ _ _ _ _ _ _ Hd4 Hp4) as Hhouse4.
  pose proof (plugs_of_household _ _ _ _ _ _ _ _ Hd5 Hp5) as Hhouse5.
  pose proof (plugs_of_household _ _ _ _ _ _ _ _ Hd6 Hp6) as Hhouse6.
  exists s4, s5, s6, p4, p5, p6, combined_sm, combined_plugs.
  split; [|split; [done|split; [|done]]].
  - intros label folder sm. rewrite !elem_of_cons.
    intros [[= -> -> ->]|[[= -> -> ->]|[[= -> -> ->]|[]%elem_of_nil]]]; eauto.
  - intros label folder codes pd. rewrite !elem_of_cons.
    intros [[= -> -> -> ->]|[[= -> -> -> ->]|[[= -> -> -> ->]|[]%elem_of_nil]]];
      done.
Qed.

End NotebookRun.

Lemma max_list_one (ns : list nat) :
  max_list ns = 1%nat → Forall (fun n => (1 ≤ n)%nat) ns →
  Forall (fun n => n = 1%nat) ns.
Proof.
  intros Hmax Hall. apply Forall_forall. intros n Hn.
  pose proof (max_list_elem_of_le n ns Hn).
  eapply Forall_forall in Hall; [|exact Hn]. simpl in *. lia.
Qed.

Section NotebookTheorems.

Variable to_datetime : string -> result Timestamp.
Variable to_timestamp : string -> result Timestamp.
Variable fs : FileSystem.
Variable tp : string.

(** The files behind a frame loaded, with the number of its columns. *)
Lemma load_data_widest (folder : string) (df : DataFrame) :
  load_data to_datetime to_timestamp fs tp folder = Ok df →
  ∃ names tables,
    listdir fs folder = Ok names
    ∧ Forall2 (fun f rows => read_csv fs (path_join folder f) = Ok rows)
              (csv_files names) tables
    ∧ length (Raw.columns df) = S (max_list (map file_width tables)).
Proof.
  intros Hload.
  pose proof Hload as (names & frames & c & Hnames & Hframes & _)
    %load_data_Ok_frames.
  apply load_files_Ok_inv in Hframes as (tables & dates & Htables & _ & _).
  exists names, tables. split_and!; [done..|].
  by apply (load_data_columns to_datetime to_timestamp fs tp folder names).
Qed.

(** X20.  The run is all or nothing: it ends with a frame only if each of the
    three meter folders and of the twenty-three plug folders loads, the
    widest file of each meter folder has sixteen columns, and every file of
    each plug folder has one column. *)
Theorem notebook_needs_every_folder (rows : list Total.Row) :
  notebook to_datetime to_timestamp fs tp = Ok rows →
  (∀ label folder, (label, folder) ∈ sm_folders →
     ∃ df names tables,
       load_data to_datetime to_timestamp fs tp folder = Ok df
       ∧ length (Raw.columns df) = 17%nat
       ∧ listdir fs folder = Ok names
       ∧ Forall2 (fun f rows => read_csv fs (path_join folder f) = Ok rows)
                 (csv_files names) tables
       ∧ max_list (map file_width tables) = 16%nat)
  ∧ (∀ label code folder, (label, code, folder) ∈ plug_folders →
       ∃ df names tables,
         load_data to_datetime to_timestamp fs tp folder = Ok df
         ∧ length (Raw.columns df) = 2%nat
         ∧ listdir fs folder = Ok names
         ∧ Forall2 (fun f rows => read_csv fs (path_join folder f) = Ok rows)
                   (csv_files names) tables
         ∧ Forall (fun lines => file_width lines = 1%nat) tables).
Proof.
  intros (s4 & s5 & s6 & p4 & p5 & p6 & csm & cpl & Hsm & _ & Hpl & _)
    %notebook_Ok_inv.
  split.
  - assert (∀ folder sm label,
              (label, folder, sm) ∈ [("Household 4", "eco/04_sm_csv", s4);
                                     ("Household 5", "eco/05_sm_csv", s5);
                                     ("Household 6", "eco/06_sm_csv", s6)] →
              ∃ df names tables,
                load_data to_datetime to_timestamp fs tp folder = Ok df
                ∧ length (Raw.columns df) = 17%nat
                ∧ listdir fs folder = Ok names
                ∧ Forall2 (fun f rows =>
                             read_csv fs (path_join folder f) = Ok rows)
                          (csv_files names) tables
                ∧ max_list (map file_width tables) = 16%nat) as Hone.
    { intros folder sm label Hin.
      destruct (Hsm _ _ _ Hin) as (df & Hload & Hlen & _).
      destruct (load_data_widest _ _ Hload) as (names & tables & ? & ? & Hw).
      exists df, names, tables. split_and!; [done..|]. lia. }
    intros label folder. unfold sm_folders. rewrite !elem_of_cons.
    intros [[= -> ->]|[[= -> ->]|[[= -> ->]|[]%elem_of_nil]]].
    + apply (Hone _ s4 "Household 4"), list_elem_of_here.
    + apply (Hone _ s5 "Household 5"), list_elem_of_further, list_elem_of_here.
    + apply (Hone _ s6 "Household 6").
      do 2 apply list_elem_of_further. apply list_elem_of_here.
  - assert (∀ label prefix codes pd code,
              (label, prefix, codes, pd)
              ∈ [("Household 4", "eco/04_plugs_csv/",
                  ["01"; "02"; "03"; "04"; "05"; "06"; "07"; "08"], p4);
                 ("Household 5", "eco/05_plugs_csv/",
                  ["01"; "02"; "03"; "04"; "05"; "06"; "07"; "08"], p5);
                 ("Household 6", "eco/06_plugs_csv/",
                  ["01"; "02"; "03"; "04"; "05"; "06"; "07"], p6)] →
              code ∈ codes →
              ∃ df names tables,
                load_data to_datetime to_timestamp fs tp (prefix +:+ code)
                = Ok df
                ∧ length (Raw.columns df) = 2%nat
                ∧ listdir fs (prefix +:+ code) = Ok names
                ∧ Forall2 (fun f rows =>
                             read_csv fs (path_join (prefix +:+ code) f)
                             = Ok rows)
                          (csv_files names) tables
                ∧ Forall (fun lines => file_width lines = 1%nat) tables)
      as Hone.
    { intros label prefix codes pd code Hin Hcode.
      destruct (Hpl _ _ _ _ Hin) as [Hkeys Hframes].
      rewrite <-Hkeys in Hcode.
      apply list_elem_of_fmap in Hcode as ([c pl] & -> & Hpd). simpl.
      destruct (Hframes _ _ Hpd) as (df & Hload & Hlen & _).
      destruct (load_data_widest _ _ Hload) as (names & tables & ? & ? & Hw).
      exists df, names, tables. split_and!; [done..|].
      assert (Forall (fun n => n = 1%nat) (map file_width tables)) as Hall.
      { apply max_list_one; [lia|].
        apply Forall_forall. intros n (t & -> & _)%list_elem_of_fmap.
        unfold file_width. lia. }
      apply Forall_forall. intros t Ht.
      eapply Forall_forall in Hall; [exact Hall|].
      apply list_elem_of_fmap. by exists t. }
    intros label code folder
      [(-> & Hc & ->)|[(-> & Hc & ->)|(-> & Hc & ->)]]%elem_of_plug_folders.
    + eapply Hone; [apply list_elem_of_here | done].
    + eapply Hone; [apply list_elem_of_further, list_elem_of_here | done].
    + eapply Hone;
        [do 2 apply list_elem_of_further; apply list_elem_of_here | done].
Qed.

(** X21.  Every row the run ends with belongs to one of the three households and
    to one of the appliance codes listed for it; its appliance total is the
    converted sum of column 0 of the frame of two columns loaded from the
    folder of that appliance, and its meter total the converted sum of
    column 0 of the frame of seventeen columns loaded from the meter folder
    of the household (sums over the rows before the cutoff, over exact
    arithmetic). *)
Theorem notebook_rows (rows : list Total.Row) (r : Total.Row) :
  notebook to_datetime to_timestamp fs tp = Ok rows →
  r ∈ rows →
  ∃ folder_sm folder_plug (sm pl : DataFrame),
    (Total.household r, folder_sm) ∈ sm_folders
    ∧ (Total.household r, Total.appliance r, folder_plug) ∈ plug_folders
    ∧ load_data to_datetime to_timestamp fs tp folder_sm = Ok sm
    ∧ length (Raw.columns sm) = 17%nat
    ∧ load_data to_datetime to_timestamp fs tp folder_plug = Ok pl
    ∧ length (Raw.columns pl) = 2%nat
    ∧ Total.powerallphases r = kwh (total (Raw.column0 sm))
    ∧ Total.power r = kwh (total (Raw.column0 pl)).
Proof.
  intros (s4 & s5 & s6 & p4 & p5 & p6 & csm & cpl & Hsm & Hcsm & Hpl & Hcpl
          & ->)%notebook_Ok_inv
    [Hl Hr]%merge_elem.
  apply groupby_sum_elem in Hl as [Hpne Hp].
  apply groupby_sum_elem in Hr as [Hsne HT].
  (* the meter side *)
  destruct (combined_sm_rows_of _ _ _ _ _ Hcsm Hsne) as (sm & Hin_sm & Hsm_rows).
  rewrite Hsm_rows in HT. unfold assign_household in HT.
  rewrite map_map in HT. simpl in HT.
  assert (∃ folder_sm,
            (Total.household r, folder_sm) ∈ sm_folders
            ∧ (Total.household r, folder_sm, sm)
              ∈ [("Household 4", "eco/04_sm_csv", s4);
                 ("Household 5", "eco/05_sm_csv", s5);
                 ("Household 6", "eco/06_sm_csv", s6)])
    as (folder_sm & Hfolder_sm & Hin_sm').
  { unfold sm_folders. rewrite !elem_of_cons in Hin_sm.
    destruct Hin_sm as [[= Hh ->]|[[= Hh ->]|[[= Hh ->]|[]%elem_of_nil]]];
      rewrite Hh.
    - exists "eco/04_sm_csv". split; apply list_elem_of_here.
    - exists "eco/05_sm_csv".
      split; apply list_elem_of_further, list_elem_of_here.
    - exists "eco/06_sm_csv".
      split; do 2 apply list_elem_of_further; apply list_elem_of_here. }
  destruct (Hsm _ _ _ Hin_sm') as (dfsm & Hload_sm & Hlen_sm & Hpower_sm).
  (* the plug side *)
  assert (∃ x, x ∈ cpl ∧ plug_key x = (Total.household r, Total.appliance r))
    as (x & Hx & Hkey).
  { destruct (rows_of plug_key (Total.household r, Total.appliance r) cpl)
      as [|x l] eqn:Hrows; [done|]. exists x.
    assert (x ∈ rows_of plug_key (Total.household r, Total.appliance r) cpl)
      as Hx by (rewrite Hrows; apply list_elem_of_here).
    by apply list_elem_of_filter in Hx as [? ?]. }
  destruct (combined_plugs_elem _ _ _ _ _ Hcpl Hx) as (pd & df & Hpd & Hdf).
  injection Hkey as Hh Ha. rewrite Hh, Ha in *.
  destruct codes_NoDup as [Hnd8 Hnd7].
  assert (NoDup (map fst pd)
          ∧ ∃ folder_plug dfpl,
              (Total.household r, Total.appliance r, folder_plug) ∈ plug_folders
              ∧ load_data to_datetime to_timestamp fs tp folder_plug = Ok dfpl
              ∧ length (Raw.columns dfpl) = 2%nat
              ∧ map Plug.power df = map kwh (Raw.column0 dfpl))
    as (Hnd & folder_plug & dfpl & Hfolder & Hload & Hlen_pl & Hpower_pl).
  { assert (Total.appliance r ∈ map fst pd) as Hcode
      by (apply list_elem_of_fmap; by exists (Total.appliance r, df)).
    rewrite !elem_of_cons in Hpd.
    destruct Hpd as [[= Hlabel ->]|[[= Hlabel ->]|[[= Hlabel ->]|[]%elem_of_nil]]].
    - destruct (Hpl "Household 4" "eco/04_plugs_csv/"
                  ["01"; "02"; "03"; "04"; "05"; "06"; "07"; "08"] p4)
        as [Hk Hf]; [apply list_elem_of_here|].
      split; [by rewrite Hk|]. destruct (Hf _ _ Hdf) as (dfpl & ? & ? & ?).
      exists ("eco/04_plugs_csv/" +:+ Total.appliance r)%string, dfpl.
      split_and!; [|done..]. apply elem_of_plug_folders. left.
      by rewrite <-Hk.
    - destruct (Hpl "Household 5" "eco/05_plugs_csv/"
                  ["01"; "02"; "03"; "04"; "05"; "06"; "07"; "08"] p5)
        as [Hk Hf]; [apply list_elem_of_further, list_elem_of_here|].
      split; [by rewrite Hk|]. destruct (Hf _ _ Hdf) as (dfpl & ? & ? & ?).
      exists ("eco/05_plugs_csv/" +:+ Total.appliance r)%string, dfpl.
      split_and!; [|done..]. apply elem_of_plug_folders. right. left.
      by rewrite <-Hk.
    - destruct (Hpl "Household 6" "eco/06_plugs_csv/"
                  ["01"; "02"; "03"; "04"; "05"; "06"; "07"] p6)
        as [Hk Hf];
        [do 2 apply list_elem_of_further; apply list_elem_of_here|].
      split; [by rewrite Hk|]. destruct (Hf _ _ Hdf) as (dfpl & ? & ? & ?).
      exists ("eco/06_plugs_csv/" +:+ Total.appliance r)%string, dfpl.
      split_and!; [|done..]. apply elem_of_plug_folders. right. right.
      by rewrite <-Hk. }
  rewrite (combined_plugs_rows_of _ _ _ _ _ _ _ _ Hcpl Hpd Hnd Hdf) in Hp.
  unfold assign_household, assign_appliance in Hp.
  rewrite !map_map in Hp. simpl in Hp.
  exists folder_sm, folder_plug, dfsm, dfpl. split_and!; try done.
  - rewrite HT. by apply total_converted.
  - rewrite Hp. by apply total_converted.
Qed.

End NotebookTheorems.

Lemma SampleNotebook_run :
  notebook Iso.to_datetime Iso.to_timestamp SampleNotebook.fs time_point
  = Ok SampleNotebook.rows
  ∧ length SampleNotebook.rows = 23%nat.
Proof. split; vm_compute; reflexivity. Qed.

Lemma notebook_needs_every_folder_witness :
  ∃ df names tables,
    load_data Iso.to_datetime Iso.to_timestamp SampleNotebook.fs time_point
      "eco/06_plugs_csv/07" = Ok df
    ∧ length (Raw.columns df) = 2%nat
    ∧ listdir SampleNotebook.fs "eco/06_plugs_csv/07" = Ok names
    ∧ Forall2 (fun f rows =>
                 read_csv SampleNotebook.fs
                   (path_join "eco/06_plugs_csv/07" f) = Ok rows)
              (csv_files names) tables
    ∧ Forall (fun lines => file_width lines = 1%nat) tables.
Proof.
  destruct (notebook_needs_every_folder Iso.to_datetime Iso.to_timestamp
              SampleNotebook.fs time_point SampleNotebook.rows) as [_ Hplugs].
  - vm_compute. reflexivity.
  - apply (Hplugs "Household 6" "07"). apply elem_of_plug_folders.
    right. right. split_and!; [done| |done].
    do 6 apply list_elem_of_further. apply list_elem_of_here.
Defined.

Lemma notebook_rows_witness :
  notebook Iso.to_datetime Iso.to_timestamp SampleNotebook.fs time_point
  = Ok SampleNotebook.rows
  ∧ Forall (fun r =>
      ∃ folder_sm folder_plug (sm pl : DataFrame),
        (Total.household r, folder_sm) ∈ sm_folders
        ∧ (Total.household r, Total.appliance r, folder_plug) ∈ plug_folders
        ∧ load_data Iso.to_datetime Iso.to_timestamp SampleNotebook.fs
            time_point folder_sm = Ok sm
        ∧ length (Raw.columns sm) = 17%nat
        ∧ load_data Iso.to_datetime Iso.to_timestamp SampleNotebook.fs
            time_point folder_plug = Ok pl
        ∧ length (Raw.columns pl) = 2%nat
        ∧ Total.powerallphases r = kwh (total (Raw.column0 sm))
        ∧ Total.power r = kwh (total (Raw.column0 pl)))
     SampleNotebook.rows.
Proof.
  assert (notebook Iso.to_datetime Iso.to_timestamp SampleNotebook.fs
            time_point = Ok SampleNotebook.rows) as Hrun
    by (vm_compute; reflexivity).
  split; [exact Hrun|]. apply Forall_forall. intros r Hr.
  exact (notebook_rows Iso.to_datetime Iso.to_timestamp SampleNotebook.fs
           time_point SampleNotebook.rows r Hrun Hr).
Defined.

(** X7.  The test [file.endswith(".csv")] and the slice [file[:-4]] fit: the
    names the loop takes are the stems followed by [.csv], and the slice
    gives back the stem, which is the text handed to [pd.to_datetime].  A
    name shorter than the extension is not taken. *)
Theorem csv_stem_round_trip (file stem : string) :
  (endswith file ".csv" = true ↔ ∃ s, file = (s +:+ ".csv")%string)
  ∧ endswith (stem +:+ ".csv") ".csv" = true
  ∧ drop_last4 (stem +:+ ".csv") = stem
  ∧ (endswith file ".csv" = true → (4 ≤ String.length file)%nat).
Proof.
  split_and!.
  - split.
    + intros Hcsv%endswith_csv_iff. by exists (drop_last4 file).
    + intros [s ->]. apply csv_name_stem.
  - apply csv_name_stem.
  - apply csv_name_stem.
  - intros Hcsv%endswith_csv_iff. apply (f_equal String.length) in Hcsv.
    rewrite string_length_app in Hcsv. simpl in Hcsv. lia.
Qed.

Lemma csv_stem_round_trip_witness :
  endswith "2012-06-27.csv" ".csv" = true
  ∧ (4 ≤ String.length "2012-06-27.csv")%nat.
Proof.
  split; [reflexivity|].
  apply (csv_stem_round_trip "2012-06-27.csv" ""). reflexivity.
Defined.
